(** * GlasXC training script ([train_GlasXC.py]): model and properties

    The script is a straight-line program over module-level variables: it
    builds the model and the data loaders, runs the training loop with the
    GLAS regulariser, and ends with plotting, saving and the prediction on
    the test set.  It is embedded here as follows.

    - Python exceptions are constructors of [exception]; tensor expressions
      live in the error monad [result], statements of the script in the
      state-and-error monad [prog] over [run_state], the record of the
      module-level variables that the statements read and write.  A raised
      exception keeps the state reached so far, so what was printed before
      the failure can still be observed.
    - Tensors hold real numbers: the float32 arithmetic of the tensor
      library is idealised to exact arithmetic in [R].
    - The network, the optimiser, the loss of the library, the metrics and
      the random permutation of the loader are not part of the script; they
      are variables of the section [Script].  The run starts at line 135
      from the network, the optimiser and the generator that lines 19-121
      have built. *)

From Stdlib Require Import String List ZArith Reals Lra Lia Bool PeanoNat.
From Stdlib Require Import ClassicalEpsilon Sorted.
Import ListNotations.

Set Implicit Arguments.

(** ** Exceptions and the error monad *)

Inductive exception : Type :=
| NameError (name : string)
| TypeError (msg : string)
| ValueError (msg : string)
| IndexError (msg : string)
| RuntimeError (msg : string)
| ZeroDivisionError.

Inductive result (A : Type) : Type :=
| Ok (a : A)
| Raise (e : exception).

Arguments Ok {A} a.
Arguments Raise {A} e.

Definition rbind {A B : Type} (r : result A) (k : A -> result B) : result B :=
  match r with
  | Ok a => k a
  | Raise e => Raise e
  end.

Declare Scope result_scope.
Delimit Scope result_scope with result.
Notation "x <- r ;; k" := (rbind r (fun x => k))
  (at level 61, r at next level, right associativity) : result_scope.

Definition raises {A : Type} (r : result A) : Prop := exists e, r = Raise e.

(** ** The tensor library

    What the script uses of [torch], on two-dimensional tensors.  A tensor
    carries its shape, so that a dimension of size zero is not lost, and the
    list of its rows.  One-dimensional tensors are lists. *)

Module Torch.

Open Scope R_scope.

Record tensor : Type := mkTensor {
  nrows : nat;
  ncols : nat;
  rows : list (list R)
}.

(** The tensor whose rows are given, all of the length of the first. *)
Definition of_rows (l : list (list R)) : tensor :=
  mkTensor (length l) (match l with [] => 0%nat | r :: _ => length r end) l.

Definition wf (T : tensor) : Prop :=
  length (rows T) = nrows T /\ Forall (fun r => length r = ncols T) (rows T).

Definition entry (T : tensor) (i j : nat) : R := nth j (nth i (rows T) []) 0.

(** The [n] by [m] tensor with entry [f i j] at row [i], column [j]. *)
Definition tabulate (n m : nat) (f : nat -> nat -> R) : tensor :=
  mkTensor n m (map (fun i => map (fun j => f i j) (seq 0 m)) (seq 0 n)).

(** Sum of [f 0 .. f (n-1)]. *)
Fixpoint sum_upto (n : nat) (f : nat -> R) : R :=
  match n with
  | O => 0
  | S k => sum_upto k f + f k
  end.

(** [T.t()] *)
Definition t (T : tensor) : tensor :=
  tabulate (ncols T) (nrows T) (fun i j => entry T j i).

(** [torch.mm(A, B)] *)
Definition mm (A B : tensor) : result tensor :=
  if (ncols A =? nrows B)%nat
  then Ok (tabulate (nrows A) (ncols B)
             (fun i j => sum_upto (ncols A) (fun k => entry A i k * entry B k j)))
  else Raise (RuntimeError "size mismatch").

(** [torch.diag(A)] on a two-dimensional tensor: the diagonal, as a vector. *)
Definition diag_vec (A : tensor) : list R :=
  map (fun i => entry A i i) (seq 0 (Nat.min (nrows A) (ncols A))).

(** [torch.diag(z)] on a one-dimensional tensor: the diagonal matrix. *)
Definition diag_mat (z : list R) : tensor :=
  tabulate (length z) (length z)
    (fun i j => if (i =? j)%nat then nth i z 0 else 0).

Definition eye (n : nat) : tensor :=
  tabulate n n (fun i j => if (i =? j)%nat then 1 else 0).

(** No entry of the vector is zero. *)
Definition all_nonzero (z : list R) : Prop := Forall (fun r => r <> 0) z.

(** [W] is the inverse of the square tensor [Z]. *)
Definition is_inverse (Z W : tensor) : Prop :=
  nrows Z = ncols Z /\ wf W /\ nrows W = nrows Z /\ ncols W = nrows Z /\
  mm Z W = Ok (eye (nrows Z)) /\ mm W Z = Ok (eye (nrows Z)).

(** [torch.inverse(Z)]: the inverse when there is one; a singular (or not
    square) argument raises [RuntimeError]. *)
Definition inverse (Z : tensor) : result tensor :=
  match excluded_middle_informative (exists W, is_inverse Z W) with
  | left H => Ok (proj1_sig (constructive_indefinite_description _ H))
  | right _ => Raise (RuntimeError "singular")
  end.

(** Broadcasting of one dimension: sizes agree, or one of them is 1. *)
Definition bdim (a b : nat) : option nat :=
  if (a =? b)%nat then Some a
  else if (a =? 1)%nat then Some b
  else if (b =? 1)%nat then Some a
  else None.

(** Index into a dimension of size [a] that may have been stretched. *)
Definition bidx (a i : nat) : nat := if (a =? 1)%nat then 0%nat else i.

Definition pointwise (op : R -> R -> R) (A B : tensor) : result tensor :=
  match bdim (nrows A) (nrows B), bdim (ncols A) (ncols B) with
  | Some n, Some m =>
      Ok (tabulate n m
            (fun i j => op (entry A (bidx (nrows A) i) (bidx (ncols A) j))
                           (entry B (bidx (nrows B) i) (bidx (ncols B) j))))
  | _, _ => Raise (RuntimeError "size mismatch")
  end.

(** [torch.add(A, B)] and [torch.sub(A, B)] *)
Definition add : tensor -> tensor -> result tensor := pointwise Rplus.
Definition sub : tensor -> tensor -> result tensor := pointwise Rminus.

(** [c * A] for a Python float [c] *)
Definition scal (c : R) (A : tensor) : tensor :=
  tabulate (nrows A) (ncols A) (fun i j => c * entry A i j).

(** Sum of the squares of the entries. *)
Definition sum_squares (A : tensor) : R :=
  sum_upto (nrows A) (fun i => sum_upto (ncols A) (fun j => entry A i j * entry A i j)).

(** [torch.norm(A, p='fro')] *)
Definition norm_fro (A : tensor) : R := sqrt (sum_squares A).

(** [torch.nonzero(y)]: the (row, column) index pairs of the non-zero
    entries, in row-major order. *)
Definition nonzero (y : tensor) : list (nat * nat) :=
  flat_map (fun i =>
    flat_map (fun j => if Req_dec_T (entry y i j) 0 then [] else [(i, j)])
             (seq 0 (ncols y)))
    (seq 0 (nrows y)).

(** [torch.flatten] of the index pairs. *)
Definition flatten_pairs (l : list (nat * nat)) : list nat :=
  flat_map (fun p => [fst p; snd p]) l.

(** [t[1::2]]: the elements at odd positions. *)
Fixpoint odd_positions (l : list nat) : list nat :=
  match l with
  | _ :: b :: l' => b :: odd_positions l'
  | _ => []
  end.

Fixpoint insert_sorted (a : nat) (l : list nat) : list nat :=
  match l with
  | [] => [a]
  | b :: l' =>
      if (a <? b)%nat then a :: l
      else if (a =? b)%nat then l
      else b :: insert_sorted a l'
  end.

(** [.unique()]: the distinct values, sorted. *)
Definition unique (l : list nat) : list nat := fold_right insert_sorted [] l.

(** [torch.index_select(y, 1, indices)]: the columns listed in [indices]. *)
Definition index_select_cols (y : tensor) (indices : list nat) : result tensor :=
  if forallb (fun j => (j <? ncols y)%nat) indices
  then Ok (tabulate (nrows y) (length indices)
             (fun i j => entry y i (nth j indices 0%nat)))
  else Raise (IndexError "index out of range").

End Torch.

Import Torch.

(** ** Configuration, model and data *)

Inductive device : Type := cpu | cuda.

(** The five submodules of the network that the script names. *)
Inductive submodule : Type :=
| input_encoder | input_decoder | output_encoder | output_decoder | regressor.

(** The choices of [--save_model]: 'all', 'inputAE', 'outputAE', 'regressor'. *)
Inductive save_choice : Type := SaveAll | SaveInputAE | SaveOutputAE | SaveRegressor.

Definition save_choice_eqb (a b : save_choice) : bool :=
  match a, b with
  | SaveAll, SaveAll | SaveInputAE, SaveInputAE
  | SaveOutputAE, SaveOutputAE | SaveRegressor, SaveRegressor => true
  | _, _ => false
  end.

(** [c in l] *)
Definition chosen (c : save_choice) (l : list save_choice) : bool :=
  existsb (save_choice_eqb c) l.

(** The parsed command line, as far as the training part reads it
    (lines 59-85). *)
Record arguments : Type := mkArguments {
  arg_device : device;          (* --device, default 'cpu' *)
  batch_size : Z;               (* --batch_size, default 64 *)
  epochs : Z;                   (* --epochs, default 10 *)
  interval : Z;                 (* --interval, default -1 *)
  plot : bool;                  (* --plot *)
  save_model : option (list save_choice);   (* --save_model, default None *)
  k : Z                         (* --k, default 5 *)
}.

(** A data set as the loader of the repository presents it: one feature row
    and one label row per sample. *)
Definition dataset : Type := list (list R * list R).

(** [torch.utils.data.DataLoader(dataset, batch_size=..., shuffle=...)] *)
Record DataLoader : Type := mkDataLoader {
  dl_dataset : dataset;
  dl_batch_size : nat;
  dl_shuffle : bool
}.

Definition make_loader (d : dataset) (bs : Z) (shuffle : bool) : result DataLoader :=
  if (bs <=? 0)%Z
  then Raise (ValueError "batch_size should be a positive integer value")
  else Ok (mkDataLoader d (Z.to_nat bs) shuffle).

(** Consecutive groups of [b] elements, the last one possibly shorter;
    [fuel] bounds the number of groups. *)
Fixpoint groups_of {A : Type} (fuel b : nat) (l : list A) : list (list A) :=
  match fuel with
  | O => []
  | S f =>
      match l with
      | [] => []
      | _ => firstn b l :: groups_of f b (skipn b l)
      end
  end.

(** A batch: the stacked feature rows and the stacked label rows. *)
Definition batch : Type := (tensor * tensor)%type.

Definition collate (samples : list (list R * list R)) : batch :=
  (of_rows (map fst samples), of_rows (map snd samples)).

(** The order in which a loader visits its samples, given the permutation
    its sampler drew: the sequential sampler ignores it. *)
Definition visit_order (dl : DataLoader) (perm : list nat) : list nat :=
  if dl_shuffle dl then perm else seq 0 (length (dl_dataset dl)).

Definition batches_in_order (dl : DataLoader) (order : list nat) : list batch :=
  let samples := map (fun i => nth i (dl_dataset dl) ([], [])) order in
  map collate (groups_of (length samples) (dl_batch_size dl) samples).

(** The network object: its parameters and the device each submodule is on. *)
Record glasxc (params : Type) : Type := mkGlasXC {
  weights : params;
  placement : submodule -> device
}.

Definition submodule_eqb (a b : submodule) : bool :=
  match a, b with
  | input_encoder, input_encoder | input_decoder, input_decoder
  | output_encoder, output_encoder | output_decoder, output_decoder
  | regressor, regressor => true
  | _, _ => false
  end.

(** [module.to(d)] on a submodule: moves it in place. *)
Definition move_to {params : Type} (m : glasxc params) (sub : submodule) (d : device)
  : glasxc params :=
  mkGlasXC (weights m)
    (fun sub' => if submodule_eqb sub sub' then d else placement m sub').

(** What the script shows or writes: console lines, the figure, files.
    The loss of a progress line is the value handed to [round(., 5)]. *)
Inductive event : Type :=
| ProgressLine (epoch epochs cur_no len_loader : Z) (loss : R)   (* line 214 *)
| EpochLine (epoch epochs K : Z) (p_at_k ndcg_at_k : R)          (* line 231 *)
| FigureShown (class_loss p_at_k ndcg_at_k : list R)             (* line 255 *)
| FileSaved (s : submodule)                                      (* torch.save *)
| TestHeader                                                     (* line 279 *)
| TestLine (K : Z) (p_at_k ndcg_at_k : R).                       (* line 292 *)

(** ** Names of the module namespace

    Every name the script binds at module level, by import, [def],
    assignment or as a loop variable, anywhere in the file. *)
Definition bound_names : list string :=
  [ "datetime"; "partial"; "plt"; "gs"; "ArgumentParser";
    "ArgumentDefaultsHelpFormatter"; "GlasXC"; "LibSVMLoader";
    "precision_at_k"; "ndcg_score_at_k"; "math"; "os"; "yaml"; "torch"; "np";
    "F"; "weights_init"; "TIME_STAMP"; "parser"; "args"; "cur_device";
    "USE_CUDA"; "input_enc_cfg"; "input_dec_cfg"; "output_enc_cfg";
    "output_dec_cfg"; "regress_cfg"; "Glas_XC"; "opt_options"; "optimizer";
    "loader_kwargs"; "dset_opts"; "USE_TEST_DSET"; "train_file";
    "train_loader"; "len_loader"; "train_data_loader"; "test_file";
    "test_loader"; "test_data_loader"; "all_iters"; "ALPHA_INPUT";
    "ALPHA_OUTPUT"; "K"; "INP_REC_LOSS"; "OTP_REC_LOSS"; "CLASS_LOSS";
    "AVG_P_AT_K"; "AVG_NDCG_AT_K"; "LAMBDA"; "mean"; "div"; "epoch";
    "cur_no"; "x"; "y"; "inp_ae_fp"; "out_ae_fp"; "reg_fp"; "valid_idx"; "t";
    "t1"; "t2"; "t3"; "indices"; "y_sampled"; "v"; "V"; "A"; "Z"; "AZ"; "M";
    "g"; "gl"; "loss_glas"; "loss_class"; "net_loss"; "pred_y"; "actual_y";
    "p_at_k"; "ndcg_at_k"; "i"; "fig"; "gridspec"; "ax1"; "ax2"; "ax3" ]%string.

(** The built-in names the script calls. *)
Definition builtin_names : list string :=
  [ "isinstance"; "getattr"; "open"; "iter"; "range"; "round"; "print";
    "len"; "list"; "ValueError" ]%string.

(** The object a name is bound to; the statements here only pass it on. *)
Inductive pyobj : Type := Bound (name : string).

(** Reading a global name: [NameError] unless the module binds it or it is
    built in. *)
Definition lookup_name (name : string) : result pyobj :=
  if existsb (String.eqb name) (bound_names ++ builtin_names)
  then Ok (Bound name)
  else Raise (NameError name).

(** The names read by line 178,
    [t3 = numpy.random.choice(t2, batch_size, replace=False)],
    in the order Python evaluates them. *)
Definition names_read_by_sampling : list string :=
  [ "numpy"; "t2"; "batch_size" ]%string.

(** ** Constants of the training part (lines 155-157) *)

Definition LAMBDA : R := 10.
Definition mean : R := 0.5.
Definition div : R := 1 / (2456 ^ 2).

(** [a % b] on Python integers *)
Definition py_mod (a b : Z) : result Z :=
  if (b =? 0)%Z then Raise ZeroDivisionError else Ok (a mod b)%Z.

(** [range(n)] *)
Definition py_range (n : Z) : list Z := map Z.of_nat (seq 0 (Z.to_nat n)).

(** [np.vstack] of a list of tensors *)
Definition vstack (l : list tensor) : result tensor :=
  match l with
  | [] => Raise (ValueError "need at least one array to concatenate")
  | T0 :: _ =>
      if forallb (fun T => (ncols T =? ncols T0)%nat) l
      then Ok (mkTensor (list_sum (map nrows l)) (ncols T0) (flat_map rows l))
      else Raise (ValueError "all the input array dimensions except for the concatenation axis must match exactly")
  end.

(** [T[i]] on a two-dimensional array *)
Definition row (T : tensor) (i : nat) : result (list R) :=
  if (i <? nrows T)%nat then Ok (nth i (rows T) []) else Raise (IndexError "index out of bounds").

(** [np.mean] of a list; the empty list, [nan] for the library, has no
    meaningful value here. *)
Definition np_mean (l : list R) : R := (fold_right Rplus 0 l / INR (length l))%R.

Fixpoint rmap {A B : Type} (f : A -> result B) (l : list A) : result (list B) :=
  match l with
  | [] => Ok []
  | a :: l' =>
      (b <- f a ;; bs <- rmap f l' ;; Ok (b :: bs))%result
  end.

(** What the sampling of the label matrix (lines 174-180) binds. *)
Record sampled : Type := mkSampled {
  t3 : list nat;
  indices : list nat;
  y_sampled : tensor
}.

(** ** A small instance

    A network that embeds a label matrix as itself and predicts the features
    it is given, an optimiser that leaves the parameters alone, and a random
    generator that alternates between the identity and the reversal. *)

Module Toy.

Definition params : Type := unit.
Definition opt_state : Type := unit.
Definition rng : Type := nat.

Definition randperm (r : rng) (n : nat) : list nat * rng :=
  (if Nat.even r then seq 0 n else rev (seq 0 n), S r).

Definition forward (m : glasxc params) (d : device) (x y : tensor)
  : result (tensor * tensor * tensor) := Ok (x, y, y).

Definition encode_output (m : glasxc params) (d : device) (y : tensor)
  : result tensor := Ok y.

(** An embedding of width two, whatever the number of labels. *)
Definition encode_narrow (m : glasxc params) (d : device) (y : tensor)
  : result tensor := Ok (tabulate (nrows y) 2 (fun _ _ => 1%R)).

Definition predict (m : glasxc params) (d : device) (x : tensor)
  : result tensor := Ok x.

Definition binary_cross_entropy (p y : tensor) : result R := Ok 0%R.

Definition backward_and_step (o : opt_state) (loss : params -> result R) (w : params)
  : params * opt_state := (w, o).

Definition metric (actual predicted : list R) (k : Z) : R := 1%R.

Definition random_choice (np : pyobj) (a : list nat) (size : pyobj)
  : result (list nat) := Ok a.

(** A training set of two samples with one feature and one label each, and
    a test set of one. *)
Definition train_set : dataset := [([0%R], [0%R]); ([1%R], [1%R])].
Definition test_set : dataset := [([1%R], [1%R])].

(** The defaults of the command line, with the given interval. *)
Definition args_with_interval (n : Z) : arguments :=
  mkArguments cpu 64 10 n false None 5.

(** No epoch, the plot, every submodule saved. *)
Definition args_run_end (d : device) : arguments :=
  mkArguments d 1 0 (-1) true (Some [SaveAll]) 5.

(** A batch of one sample with the only label set. *)
Definition one_label : tensor := of_rows [[1%R]].

Definition no_sample : sampled := mkSampled [] [] (of_rows []).

End Toy.

(** ** The script *)

Section Script.

(** Parameters of the network, state of the optimiser, state of the random
    number generator of the tensor library. *)
Variables (params opt_state rng : Type).

(** [torch.randperm], as the random sampler of a shuffling loader calls it. *)
Variable randperm : rng -> nat -> list nat * rng.

(** The network (module [XMC.GlasXC]), applied to inputs on a device. *)
Variable forward :
  glasxc params -> device -> tensor -> tensor -> result (tensor * tensor * tensor).
Variable encode_output : glasxc params -> device -> tensor -> result tensor.
Variable predict : glasxc params -> device -> tensor -> result tensor.

(** [F.binary_cross_entropy] *)
Variable binary_cross_entropy : tensor -> tensor -> result R.

(** [net_loss.backward()] followed by [optimizer.step()], after
    [optimizer.zero_grad()]: one update of the parameters along the gradient
    of the loss, the loss being given as a function of the parameters. *)
Variable backward_and_step :
  opt_state -> (params -> result R) -> params -> params * opt_state.

(** The metrics (module [XMC.metrics]). *)
Variables precision_at_k ndcg_score_at_k : list R -> list R -> Z -> R.

(** [numpy.random.choice(a, size, replace=False)], were it reachable. *)
Variable random_choice : pyobj -> list nat -> pyobj -> result (list nat).

(** The parsed arguments and the data sets named by the data set
    description; the test set is optional ([USE_TEST_DSET]). *)
Variable args : arguments.
Variable train_loader : dataset.
Variable test_loader : option dataset.

Definition cur_device : device := arg_device args.
Definition K : Z := k args.
Definition len_loader : Z := Z.of_nat (length train_loader).

(** *** Module-level variables *)

Record run_state : Type := mkState {
  Glas_XC : glasxc params;
  optimizer : opt_state;
  torch_rng : rng;
  epoch : option Z;            (* unbound until the loop over epochs binds it *)
  cur_no : Z;
  all_iters : Z;
  CLASS_LOSS : list R;
  AVG_P_AT_K : list R;
  AVG_NDCG_AT_K : list R;
  output : list event          (* console, figure and files, oldest first *)
}.

Inductive outcome (A : Type) : Type :=
| Done (a : A) (s : run_state)
| Failed (e : exception) (s : run_state).

Arguments Done {A} a s.
Arguments Failed {A} e s.

Definition prog (A : Type) : Type := run_state -> outcome A.

Definition ret {A : Type} (a : A) : prog A := fun s => Done a s.

Definition bind {A B : Type} (p : prog A) (k : A -> prog B) : prog B :=
  fun s =>
    match p s with
    | Done a s' => k a s'
    | Failed e s' => Failed e s'
    end.

Definition lift {A : Type} (r : result A) : prog A :=
  fun s =>
    match r with
    | Ok a => Done a s
    | Raise e => Failed e s
    end.

Definition get : prog run_state := fun s => Done s s.
Definition put (s : run_state) : prog unit := fun _ => Done tt s.
Definition modify (f : run_state -> run_state) : prog unit := fun s => Done tt (f s).

Declare Scope prog_scope.
Delimit Scope prog_scope with prog.
Notation "x <- p ;; q" := (bind p (fun x => q))
  (at level 61, p at next level, right associativity) : prog_scope.
Notation "p ;; q" := (bind p (fun _ => q))
  (at level 61, right associativity) : prog_scope.

Definition final_state {A : Type} (o : outcome A) : run_state :=
  match o with
  | Done _ s => s
  | Failed _ s => s
  end.

Definition set_model (m : glasxc params) (s : run_state) : run_state :=
  mkState m (optimizer s) (torch_rng s) (epoch s) (cur_no s) (all_iters s)
          (CLASS_LOSS s) (AVG_P_AT_K s) (AVG_NDCG_AT_K s) (output s).

Definition set_optimizer (o : opt_state) (s : run_state) : run_state :=
  mkState (Glas_XC s) o (torch_rng s) (epoch s) (cur_no s) (all_iters s)
          (CLASS_LOSS s) (AVG_P_AT_K s) (AVG_NDCG_AT_K s) (output s).

Definition set_rng (r : rng) (s : run_state) : run_state :=
  mkState (Glas_XC s) (optimizer s) r (epoch s) (cur_no s) (all_iters s)
          (CLASS_LOSS s) (AVG_P_AT_K s) (AVG_NDCG_AT_K s) (output s).

Definition set_epoch (e : Z) (s : run_state) : run_state :=
  mkState (Glas_XC s) (optimizer s) (torch_rng s) (Some e) (cur_no s) (all_iters s)
          (CLASS_LOSS s) (AVG_P_AT_K s) (AVG_NDCG_AT_K s) (output s).

Definition set_cur_no (n : Z) (s : run_state) : run_state :=
  mkState (Glas_XC s) (optimizer s) (torch_rng s) (epoch s) n (all_iters s)
          (CLASS_LOSS s) (AVG_P_AT_K s) (AVG_NDCG_AT_K s) (output s).

Definition set_all_iters (n : Z) (s : run_state) : run_state :=
  mkState (Glas_XC s) (optimizer s) (torch_rng s) (epoch s) (cur_no s) n
          (CLASS_LOSS s) (AVG_P_AT_K s) (AVG_NDCG_AT_K s) (output s).

Definition append_CLASS_LOSS (l : R) (s : run_state) : run_state :=
  mkState (Glas_XC s) (optimizer s) (torch_rng s) (epoch s) (cur_no s) (all_iters s)
          (CLASS_LOSS s ++ [l]) (AVG_P_AT_K s) (AVG_NDCG_AT_K s) (output s).

Definition append_AVG (p n : R) (s : run_state) : run_state :=
  mkState (Glas_XC s) (optimizer s) (torch_rng s) (epoch s) (cur_no s) (all_iters s)
          (CLASS_LOSS s) (AVG_P_AT_K s ++ [p]) (AVG_NDCG_AT_K s ++ [n]) (output s).

Definition emit_event (e : event) (s : run_state) : run_state :=
  mkState (Glas_XC s) (optimizer s) (torch_rng s) (epoch s) (cur_no s) (all_iters s)
          (CLASS_LOSS s) (AVG_P_AT_K s) (AVG_NDCG_AT_K s) (output s ++ [e]).

Definition emit (e : event) : prog unit := modify (emit_event e).

Fixpoint for_each {A : Type} (l : list A) (body : A -> prog unit) : prog unit :=
  match l with
  | [] => ret tt
  | a :: l' => (body a ;; for_each l' body)%prog
  end.

(** *** Data loaders (lines 135-142) *)

Definition train_data_loader : result DataLoader :=
  make_loader train_loader (batch_size args) true.

Definition test_data_loader (d : dataset) : result DataLoader :=
  make_loader d 1000 false.

(** [iter(loader)], run to the end: a shuffling loader draws a new
    permutation from the generator, a sequential one leaves it alone. *)
Definition iterate (dl : DataLoader) : prog (list batch) :=
  fun s =>
    if dl_shuffle dl
    then let (perm, r) := randperm (torch_rng s) (length (dl_dataset dl)) in
         Done (batches_in_order dl (visit_order dl perm)) (set_rng r s)
    else Done (batches_in_order dl (visit_order dl [])) s.

(** *** The GLAS regulariser (lines 170-193) *)

(** [t1.numpy()]: only a tensor on the CPU converts. *)
Definition to_numpy (d : device) (l : list nat) : result (list nat) :=
  match d with
  | cpu => Ok l
  | cuda => Raise (TypeError "can't convert CUDA tensor to numpy")
  end.

(** [torch.from_numpy(y)], with [y] the label tensor and not an array. *)
Definition from_numpy_of_tensor (y : tensor) : result (list nat) :=
  Raise (TypeError "expected np.ndarray (got Tensor)").

(** Lines 174-180; they are indented with one tab, the depth of the body
    of the loop over the batches. *)
Definition sample_label_matrix (y : tensor) : result sampled :=
  let valid_idx := nonzero y in
  let t0 := flatten_pairs valid_idx in
  let t1 := unique (odd_positions t0) in
  (t2 <- to_numpy cur_device t1 ;;
   numpy <- lookup_name "numpy" ;;
   size <- lookup_name "batch_size" ;;
   t3 <- random_choice numpy t2 size ;;
   indices <- from_numpy_of_tensor y ;;
   y_sampled <- index_select_cols y indices ;;
   Ok (mkSampled t3 indices y_sampled))%result.

(** Lines 184-185: the co-occurrence in the embedded space. *)
Definition latent_cooccurrence (m : glasxc params) (y : tensor) : result tensor :=
  (v <- encode_output m cur_device y ;;
   mm (t v) v)%result.

(** Line 186: the co-occurrence of the labels. *)
Definition cooccurrence (y : tensor) : result tensor := mm (t y) y.

(** Lines 187-189: [Z] and [AZ]. *)
Definition normalised_cooccurrence (A : tensor) : result tensor :=
  let Zvec := diag_vec A in
  let Zmat := diag_mat Zvec in
  (Zi <- inverse Zmat ;;
   AZl <- mm A Zi ;;
   Zi' <- inverse Zmat ;;
   AZr <- mm Zi' A ;;
   add AZl AZr)%result.

(** Lines 186-190: [M], the mean of the conditional frequencies. *)
Definition mean_cooccurrence (y : tensor) : result tensor :=
  (A <- cooccurrence y ;;
   AZ <- normalised_cooccurrence A ;;
   Ok (scal mean AZ))%result.

(** Lines 184-193, in a scope where the sampling has bound [smp]. *)
Definition loss_glas (m : glasxc params) (y : tensor) (smp : sampled) : result R :=
  (V <- latent_cooccurrence m y ;;
   M <- mean_cooccurrence y ;;
   g <- sub V M ;;
   let gl := norm_fro g in
   Ok (div * gl * gl)%R)%result.

(** *** One step of training (lines 162-217) *)

(** The loss of line 208 as a function of the parameters: what
    [net_loss.backward()] differentiates. *)
Definition net_loss (m : glasxc params) (x y : tensor) (smp : sampled) (w : params)
  : result R :=
  let m' := mkGlasXC w (placement m) in
  (fp <- forward m' cur_device x y ;;
   let '(_, _, reg_fp) := fp in
   lg <- loss_glas m' y smp ;;
   bce <- binary_cross_entropy reg_fp y ;;
   Ok (bce + LAMBDA * lg)%R)%result.

(** Reading the variable [epoch]. *)
Definition read_epoch : prog Z :=
  fun s =>
    match epoch s with
    | Some e => Done e s
    | None => Failed (NameError "epoch") s
    end.

(** Lines 213-215. *)
Definition report_progress (loss_class : R) : prog unit :=
  (s <- get ;;
   r <- lift (py_mod (all_iters s) (interval args)) ;;
   if (r =? 0)%Z
   then (e <- read_epoch ;;
         emit (ProgressLine e (epochs args) (cur_no s) len_loader loss_class))
   else ret tt)%prog.

(** Lines 184-217: the regulariser, the loss, the update, the record. *)
Definition loss_and_update (x y reg_fp : tensor) (smp : sampled) : prog unit :=
  (s <- get ;;
   let m := Glas_XC s in
   lg <- lift (loss_glas m y smp) ;;
   bce <- lift (binary_cross_entropy reg_fp y) ;;
   let loss_class := (bce + LAMBDA * lg)%R in
   let (w, o) := backward_and_step (optimizer s) (net_loss m x y smp) (weights m) in
   modify (fun s => set_optimizer o (set_model (mkGlasXC w (placement m)) s)) ;;
   modify (fun s => set_all_iters (all_iters s + 1) s) ;;
   report_progress loss_class ;;
   modify (append_CLASS_LOSS loss_class))%prog.

(** Lines 162-217. *)
Definition batch_step (b : batch) : prog unit :=
  let (x, y) := b in
  (modify (fun s => set_cur_no (cur_no s + Z.of_nat (nrows x)) s) ;;
   s <- get ;;
   fp <- lift (forward (Glas_XC s) cur_device x y) ;;
   let '(_, _, reg_fp) := fp in
   smp <- lift (sample_label_matrix y) ;;
   loss_and_update x y reg_fp smp)%prog.

(** *** Evaluation (lines 219-234 and 280-293) *)

(** The body of the loops of lines 221-228 and 282-289 over the batches
    of one pass, with the network [m]: predictions and labels, stacked. *)
Definition collect (m : glasxc params) (batches : list batch) : result (tensor * tensor) :=
  (pred <- rmap (fun b : batch => predict m cur_device (fst b)) batches ;;
   pred_y <- vstack pred ;;
   actual_y <- vstack (map snd batches) ;;
   Ok (pred_y, actual_y))%result.

(** Lines 221-228 and 282-289. *)
Definition predictions (m : glasxc params) (dl : DataLoader) : prog (tensor * tensor) :=
  (batches <- iterate dl ;;
   lift (collect m batches))%prog.

Definition per_sample (metric : list R -> list R -> Z -> R) (pred_y actual_y : tensor)
  : result (list R) :=
  rmap (fun i => (a <- row actual_y i ;; p <- row pred_y i ;; Ok (metric a p K))%result)
       (seq 0 (nrows pred_y)).

Definition mean_metrics (pred_y actual_y : tensor) : result (R * R) :=
  (p_at_k <- per_sample precision_at_k pred_y actual_y ;;
   ndcg_at_k <- per_sample ndcg_score_at_k pred_y actual_y ;;
   Ok (np_mean p_at_k, np_mean ndcg_at_k))%result.

(** Lines 219-234. *)
Definition epoch_eval (dl : DataLoader) : prog unit :=
  (s <- get ;;
   py <- predictions (Glas_XC s) dl ;;
   pn <- lift (mean_metrics (fst py) (snd py)) ;;
   e <- read_epoch ;;
   emit (EpochLine e (epochs args) K (fst pn) (snd pn)) ;;
   modify (append_AVG (fst pn) (snd pn)))%prog.

(** Lines 160-234. *)
Definition train_epoch (dl : DataLoader) (e : Z) : prog unit :=
  (modify (set_epoch e) ;;
   modify (set_cur_no 0) ;;
   batches <- iterate dl ;;
   for_each batches batch_step ;;
   epoch_eval dl)%prog.

Definition train (dl : DataLoader) : prog unit :=
  for_each (py_range (epochs args)) (train_epoch dl).

(** *** End of the run (lines 237-293) *)

(** [ax.plot(list(range(1, n + 1)), ys)] *)
Definition plot_series (n : Z) (ys : list R) : result unit :=
  if (Z.to_nat n =? length ys)%nat then Ok tt
  else Raise (ValueError "x and y must have same first dimension").

(** Lines 237-255. *)
Definition plot_graphs : prog unit :=
  if plot args
  then (s <- get ;;
        lift (plot_series (all_iters s) (CLASS_LOSS s)) ;;
        lift (plot_series (epochs args) (AVG_P_AT_K s)) ;;
        lift (plot_series (epochs args) (AVG_NDCG_AT_K s)) ;;
        emit (FigureShown (CLASS_LOSS s) (AVG_P_AT_K s) (AVG_NDCG_AT_K s)))%prog
  else ret tt.

(** [torch.save(Glas_XC.<sub>.to('cpu'), ...)] *)
Definition save_submodule (sub : submodule) : prog unit :=
  (modify (fun s => set_model (move_to (Glas_XC s) sub cpu) s) ;;
   emit (FileSaved sub))%prog.

(** Lines 259-274. *)
Definition save_models : prog unit :=
  match save_model args with
  | None => ret tt
  | Some choices =>
      ((if chosen SaveInputAE choices || chosen SaveAll choices
        then (save_submodule input_encoder ;; save_submodule input_decoder)
        else ret tt) ;;
       (if chosen SaveOutputAE choices || chosen SaveAll choices
        then (save_submodule output_encoder ;; save_submodule output_decoder)
        else ret tt) ;;
       (if chosen SaveRegressor choices || chosen SaveAll choices
        then save_submodule regressor
        else ret tt))%prog
  end.

(** Lines 278-293. *)
Definition prediction_on_test (tdl : option DataLoader) : prog unit :=
  match tdl with
  | None => ret tt
  | Some dl =>
      (emit TestHeader ;;
       s <- get ;;
       py <- predictions (Glas_XC s) dl ;;
       pn <- lift (mean_metrics (fst py) (snd py)) ;;
       _ <- read_epoch ;;
       emit (TestLine K (fst pn) (snd pn)))%prog
  end.

(** Lines 237-293. *)
Definition run_end (tdl : option DataLoader) : prog unit :=
  (plot_graphs ;; save_models ;; prediction_on_test tdl)%prog.

(** *** The whole script, from the construction of the loaders *)

Definition make_test_loader : result (option DataLoader) :=
  match test_loader with
  | None => Ok None
  | Some d => (dl <- test_data_loader d ;; Ok (Some dl))%result
  end.

Definition script : prog unit :=
  (dl <- lift train_data_loader ;;
   tdl <- lift make_test_loader ;;
   train dl ;;
   run_end tdl)%prog.

(** The state at line 146: the network on the configured device
    ([Glas_XC.to(cur_device)], line 115), the counters and the series empty. *)
Definition initial_state (w : params) (o : opt_state) (r : rng) : run_state :=
  mkState (mkGlasXC w (fun _ => cur_device)) o r None 0 0 [] [] [] [].


(** *** The statements of the specification, in its own words *)

(** A label matrix is binary. *)
Definition binary (Y : tensor) : Prop :=
  forall i j, entry Y i j = 0%R \/ entry Y i j = 1%R.

(** No label column is all zero. *)
Definition no_zero_column (Y : tensor) : Prop :=
  forall j, (j < ncols Y)%nat -> exists i, (i < nrows Y)%nat /\ entry Y i j <> 0%R.

(** [A] equals its transpose. *)
Definition symmetric (A : tensor) : Prop := t A = A.

(** Entry (i, j) of the product of the transpose of [Y] with [Y]. *)
Definition gram (Y : tensor) (i j : nat) : R :=
  sum_upto (nrows Y) (fun k => entry Y k i * entry Y k j)%R.

(** Entry (i, j) of the product of two [n] by [n] matrices. *)
Definition product_entry (n : nat) (A B : tensor) (i j : nat) : R :=
  sum_upto n (fun k => entry A i k * entry B k j)%R.

(** scale_constant * || V - 0.5 * (A W + W A) ||_F ^ 2 for [n] by [n]
    matrices, with scale_constant = 1 / 2456 ^ 2. *)
Definition glas_formula (n : nat) (V A W : tensor) : R :=
  (1 / 2456 ^ 2 *
   sum_upto n (fun i => sum_upto n (fun j =>
     (entry V i j - 0.5 * (product_entry n A W i j + product_entry n W A i j)) ^ 2)))%R.

(** The submodules a choice of [--save_model] asks for: the input
    autoencoder, the output autoencoder, the regressor, or all. *)
Definition saved_under (c : save_choice) (sub : submodule) : bool :=
  match c, sub with
  | SaveAll, _ => true
  | SaveInputAE, (input_encoder | input_decoder) => true
  | SaveOutputAE, (output_encoder | output_decoder) => true
  | SaveRegressor, regressor => true
  | _, _ => false
  end.

(** The three actions at the end of a run, and the action an output
    belongs to. *)
Inductive action : Type := HeldOutEvaluation | Plots | Saving.

Definition action_of (e : event) : option action :=
  match e with
  | FigureShown _ _ _ => Some Plots
  | FileSaved _ => Some Saving
  | TestHeader | TestLine _ _ _ => Some HeldOutEvaluation
  | ProgressLine _ _ _ _ _ | EpochLine _ _ _ _ _ => None
  end.

Definition actions (l : list event) : list action :=
  flat_map (fun e => match action_of e with Some a => [a] | None => [] end) l.

(** The order of the specification: evaluation, plots, saving. *)
Definition specified_rank (a : action) : nat :=
  match a with HeldOutEvaluation => 0 | Plots => 1 | Saving => 2 end.

(** The order of lines 237-293: plots, saving, evaluation. *)
Definition script_rank (a : action) : nat :=
  match a with Plots => 0 | Saving => 1 | HeldOutEvaluation => 2 end.

(** The actions come in the order of their ranks. *)
Fixpoint in_order (rank : action -> nat) (l : list action) : bool :=
  match l with
  | a :: l' =>
      match l' with
      | b :: _ => (rank a <=? rank b)%nat && in_order rank l'
      | [] => true
      end
  | [] => true
  end.

(** The outputs of [p] all satisfy [P], whether it returns or raises. *)
Definition emits {A : Type} (P : event -> Prop) (p : prog A) : Prop :=
  forall s, exists l, output (final_state (p s)) = output s ++ l /\ Forall P l.


(** *** The rest of the script, and what its statements keep *)

(** Lines 174-176: [t1], the column indices of the labels present in the
    batch. *)
Definition label_columns (y : tensor) : list nat :=
  unique (odd_positions (flatten_pairs (nonzero y))).

(** The submodules, in the order in which lines 260-274 save them. *)
Definition submodules : list submodule :=
  [input_encoder; input_decoder; output_encoder; output_decoder; regressor].

(** The submodule is asked for by one of the choices of [--save_model]. *)
Definition requested (sub : submodule) : bool :=
  match save_model args with
  | None => false
  | Some choices => existsb (fun c => saved_under c sub) choices
  end.

(** What a run has trained and recorded of the training. *)
Definition trained (s : run_state) : params * opt_state * Z * list R :=
  (weights (Glas_XC s), optimizer s, all_iters s, CLASS_LOSS s).

(** The statement keeps [I], whether it returns or raises. *)
Definition preserves {A : Type} (I : run_state -> Prop) (p : prog A) : Prop :=
  forall s, I s -> I (final_state (p s)).

(** The generator gives as many indices as it is asked for. *)
Definition randperm_sized : Prop :=
  forall r n, length (fst (randperm r n)) = n.

Definition is_progress_line (e : event) : bool :=
  match e with
  | ProgressLine _ _ _ _ _ => true
  | _ => false
  end.

Definition is_test_line (e : event) : bool :=
  match e with
  | TestLine _ _ _ => true
  | _ => false
  end.

(** *** Initialisation of the weights (lines 19-29 and 113-114) *)

(** A weight or bias tensor of a layer. *)
Variable weight : Type.

(** The attributes of [torch.nn.init] by name: what the initialiser of
    that name does to a tensor, drawing from the generator. *)
Variable nn_init : string -> option (weight -> rng -> weight * rng).

(** The modules [Module.apply] visits: linear layers and the others. *)
Inductive nn_module : Type :=
| Linear (w bias : weight)
| OtherModule (name : string).

(** What the initialisation returns: its value, or the [AttributeError]
    of a [getattr] for a name that is not there. *)
Inductive init_result (A : Type) : Type :=
| Initialised (a : A)
| AttributeError (name : string).

Arguments Initialised {A} a.
Arguments AttributeError {A} name.

(** Lines 19-29. *)
Definition weights_init (mdl : nn_module) (scheme : string) (g : rng)
  : init_result (nn_module * rng) :=
  match mdl with
  | Linear w b =>
      match nn_init (scheme ++ "_") with
      | Some func => let (w', g') := func w g in Initialised (Linear w' b, g')
      | None => AttributeError (scheme ++ "_")
      end
  | OtherModule _ => Initialised (mdl, g)
  end.

(** [Glas_XC.apply(partial(weights_init, scheme=scheme))] over the modules
    of the network, in the order [apply] visits them. *)
Fixpoint apply_weights_init (scheme : string) (mods : list nn_module) (g : rng)
  : init_result (list nn_module * rng) :=
  match mods with
  | [] => Initialised ([], g)
  | mdl :: rest =>
      match weights_init mdl scheme g with
      | Initialised (mdl', g') =>
          match apply_weights_init scheme rest g' with
          | Initialised (rest', g'') => Initialised (mdl' :: rest', g'')
          | AttributeError n => AttributeError n
          end
      | AttributeError n => AttributeError n
      end
  end.

(** Lines 113-114, for the value of [--init_scheme]. *)
Definition initialise_network (init_scheme : string) (mods : list nn_module) (g : rng)
  : init_result (list nn_module * rng) :=
  if String.eqb init_scheme "default" then Initialised (mods, g)
  else apply_weights_init init_scheme mods g.

Definition is_linear (mdl : nn_module) : bool :=
  match mdl with
  | Linear _ _ => true
  | OtherModule _ => false
  end.

(** The two modules differ in the weight of a linear layer at most. *)
Definition same_but_weight (a b : nn_module) : Prop :=
  match a, b with
  | Linear _ bias, Linear _ bias' => bias = bias'
  | OtherModule n, OtherModule n' => n = n'
  | _, _ => False
  end.

(** Sample [k] of the batch has label [j]. *)
Definition has_label (y : tensor) (k j : nat) : bool :=
  if Req_dec_T (entry y k j) 0%R then false else true.

(** The number of samples of the batch that have both labels. *)
Definition samples_with_both (y : tensor) (i j : nat) : nat :=
  length (filter (fun k => has_label y k i && has_label y k j) (seq 0 (nrows y))).



(** * Properties *)

Set Default Proof Using "Type".

(** ** Facts about the tensor operations *)

Section TorchFacts.

Open Scope R_scope.

Lemma nth_map_seq {A : Type} (f : nat -> A) (n i : nat) (d : A) :
  (i < n)%nat -> nth i (map f (seq 0 n)) d = f i.
Proof.
  intros Hi.
  rewrite (nth_indep _ d (f 0%nat)) by (rewrite length_map, length_seq; exact Hi).
  rewrite (map_nth f (seq 0 n) 0%nat i).
  now rewrite seq_nth.
Qed.

Lemma entry_tabulate (n m : nat) (f : nat -> nat -> R) (i j : nat) :
  (i < n)%nat -> (j < m)%nat -> entry (tabulate n m f) i j = f i j.
Proof.
  intros Hi Hj. unfold entry, tabulate; simpl.
  rewrite nth_map_seq by exact Hi.
  now rewrite nth_map_seq by exact Hj.
Qed.

Lemma tabulate_ext (n m : nat) (f g : nat -> nat -> R) :
  (forall i j, (i < n)%nat -> (j < m)%nat -> f i j = g i j) ->
  tabulate n m f = tabulate n m g.
Proof.
  intros H. unfold tabulate. f_equal.
  apply map_ext_in. intros i Hi. apply in_seq in Hi.
  apply map_ext_in. intros j Hj. apply in_seq in Hj.
  apply H; lia.
Qed.

Lemma wf_tabulate (n m : nat) (f : nat -> nat -> R) : wf (tabulate n m f).
Proof.
  split; simpl.
  - now rewrite length_map, length_seq.
  - apply Forall_forall. intros r Hr. apply in_map_iff in Hr.
    destruct Hr as [i [<- _]]. now rewrite length_map, length_seq.
Qed.

Lemma wf_is_tabulate (T : tensor) :
  wf T -> T = tabulate (nrows T) (ncols T) (entry T).
Proof.
  destruct T as [n m l]. unfold wf, tabulate, entry; simpl.
  intros [Hlen Hrows]. f_equal.
  apply (nth_ext _ _ [] []).
  - now rewrite length_map, length_seq.
  - intros i Hi. rewrite Hlen in Hi.
    rewrite nth_map_seq by exact Hi.
    assert (Hri : length (nth i l []) = m).
    { rewrite Forall_forall in Hrows. apply Hrows. apply nth_In. lia. }
    apply (nth_ext _ _ 0 0).
    + now rewrite length_map, length_seq.
    + intros j Hj. rewrite Hri in Hj.
      now rewrite nth_map_seq by exact Hj.
Qed.

Lemma sum_upto_ext (n : nat) (f g : nat -> R) :
  (forall k, (k < n)%nat -> f k = g k) -> sum_upto n f = sum_upto n g.
Proof.
  induction n as [|n IH]; intros H; simpl.
  - reflexivity.
  - rewrite IH by (intros k Hk; apply H; lia). rewrite H by lia. reflexivity.
Qed.

Lemma sum_upto_zero (n : nat) (f : nat -> R) :
  (forall k, (k < n)%nat -> f k = 0) -> sum_upto n f = 0.
Proof.
  induction n as [|n IH]; intros H; simpl.
  - reflexivity.
  - rewrite IH by (intros k Hk; apply H; lia). rewrite H by lia. lra.
Qed.

Lemma sum_upto_nonneg (n : nat) (f : nat -> R) :
  (forall k, (k < n)%nat -> 0 <= f k) -> 0 <= sum_upto n f.
Proof.
  induction n as [|n IH]; intros H; simpl.
  - lra.
  - assert (0 <= sum_upto n f) by (apply IH; intros k Hk; apply H; lia).
    assert (0 <= f n) by (apply H; lia). lra.
Qed.

(** A sum with a single term that is not zero. *)
Lemma sum_upto_single (n i : nat) (f : nat -> R) :
  (i < n)%nat ->
  (forall k, (k < n)%nat -> k <> i -> f k = 0) ->
  sum_upto n f = f i.
Proof.
  induction n as [|n IH]; intros Hi H.
  - lia.
  - simpl. destruct (Nat.eq_dec i n) as [->|Hne].
    + rewrite sum_upto_zero by (intros k Hk; apply H; lia). lra.
    + rewrite IH by (try lia; intros k Hk Hki; apply H; lia).
      rewrite (H n) by lia. lra.
Qed.

Lemma sum_squares_nonneg (A : tensor) : 0 <= sum_squares A.
Proof.
  unfold sum_squares. apply sum_upto_nonneg. intros i _.
  apply sum_upto_nonneg. intros j _. nra.
Qed.

(** Squaring the Frobenius norm gives back the sum of the squares. *)
Lemma norm_fro_sqr (A : tensor) : norm_fro A * norm_fro A = sum_squares A.
Proof. unfold norm_fro. apply sqrt_sqrt. apply sum_squares_nonneg. Qed.

Lemma Ok_inj {A : Type} (a b : A) : Ok a = Ok b -> a = b.
Proof. now intros [= ->]. Qed.

Lemma tabulate_inj (n m : nat) (f g : nat -> nat -> R) (i j : nat) :
  tabulate n m f = tabulate n m g -> (i < n)%nat -> (j < m)%nat -> f i j = g i j.
Proof.
  intros H Hi Hj.
  rewrite <- (entry_tabulate f Hi Hj), <- (entry_tabulate g Hi Hj).
  now rewrite H.
Qed.

Lemma mm_ok (A B : tensor) :
  ncols A = nrows B ->
  mm A B = Ok (tabulate (nrows A) (ncols B)
                 (fun i j => sum_upto (ncols A) (fun k => entry A i k * entry B k j))).
Proof. intros H. unfold mm. rewrite H, Nat.eqb_refl. reflexivity. Qed.

Lemma entry_diag_mat (z : list R) (i j : nat) :
  (i < length z)%nat -> (j < length z)%nat ->
  entry (diag_mat z) i j = if (i =? j)%nat then nth i z 0 else 0.
Proof. intros Hi Hj. unfold diag_mat. now rewrite entry_tabulate. Qed.

(** Multiplying by a diagonal matrix scales the rows, or the columns. *)
Lemma mm_diag_l (z : list R) (W : tensor) :
  nrows W = length z ->
  mm (diag_mat z) W =
  Ok (tabulate (length z) (ncols W) (fun i j => nth i z 0 * entry W i j)).
Proof.
  intros H. rewrite mm_ok by (simpl; congruence). simpl. f_equal.
  apply tabulate_ext. intros i j Hi Hj.
  rewrite (sum_upto_single (i := i)); try assumption.
  - rewrite entry_diag_mat by assumption. now rewrite Nat.eqb_refl.
  - intros k Hk Hne. rewrite entry_diag_mat by assumption.
    destruct (Nat.eqb_spec i k); [congruence | lra].
Qed.

Lemma mm_diag_r (z : list R) (W : tensor) :
  ncols W = length z ->
  mm W (diag_mat z) =
  Ok (tabulate (nrows W) (length z) (fun i j => entry W i j * nth j z 0)).
Proof.
  intros H. rewrite mm_ok by (simpl; congruence). simpl. f_equal.
  apply tabulate_ext. intros i j Hi Hj. rewrite H.
  rewrite (sum_upto_single (i := j)); try assumption.
  - rewrite entry_diag_mat by assumption. now rewrite Nat.eqb_refl.
  - intros k Hk Hne. rewrite entry_diag_mat by assumption.
    destruct (Nat.eqb_spec k j); [congruence | lra].
Qed.

Lemma nth_map_Rinv (z : list R) (i : nat) :
  (i < length z)%nat -> nth i (map Rinv z) 0 = / nth i z 0.
Proof.
  intros Hi. rewrite (nth_indep _ 0 (/ 0)) by (now rewrite length_map).
  apply map_nth.
Qed.

Lemma all_nonzero_nth (z : list R) :
  all_nonzero z <-> forall i, (i < length z)%nat -> nth i z 0 <> 0.
Proof.
  unfold all_nonzero. rewrite Forall_forall. split.
  - intros H i Hi. apply H. now apply nth_In.
  - intros H r Hr. destruct (In_nth _ _ 0 Hr) as [i [Hi <-]]. now apply H.
Qed.

(** The inverse of a diagonal matrix: it exists exactly when no diagonal
    entry is zero, and is then the diagonal matrix of the reciprocals. *)
Lemma is_inverse_diag (z : list R) (W : tensor) :
  is_inverse (diag_mat z) W <-> all_nonzero z /\ W = diag_mat (map Rinv z).
Proof.
  split.
  - intros (_ & Hwf & Hr & Hc & Hl & _). simpl in Hr, Hc, Hl.
    rewrite mm_diag_l in Hl by exact Hr. rewrite Hc in Hl.
    apply Ok_inj in Hl.
    assert (Hent : forall i j, (i < length z)%nat -> (j < length z)%nat ->
              nth i z 0 * entry W i j = if (i =? j)%nat then 1 else 0).
    { intros i j Hi Hj.
      exact (tabulate_inj (g := fun i j => if (i =? j)%nat then 1 else 0) Hl Hi Hj). }
    assert (Hnz : forall i, (i < length z)%nat -> nth i z 0 <> 0).
    { intros i Hi Hz. specialize (Hent i i Hi Hi).
      rewrite Nat.eqb_refl, Hz in Hent. lra. }
    split; [now apply all_nonzero_nth|].
    rewrite (wf_is_tabulate Hwf), Hr, Hc. unfold diag_mat.
    rewrite length_map. apply tabulate_ext. intros i j Hi Hj.
    specialize (Hent i j Hi Hj). specialize (Hnz i Hi).
    rewrite nth_map_Rinv by exact Hi.
    destruct (i =? j)%nat.
    + apply (Rmult_eq_reg_l (nth i z 0)); [|exact Hnz].
      rewrite Hent. now rewrite Rinv_r.
    + apply (Rmult_eq_reg_l (nth i z 0)); [|exact Hnz].
      rewrite Hent. lra.
  - intros [Hnz ->]. rewrite all_nonzero_nth in Hnz.
    assert (Hlen : length (map Rinv z) = length z) by apply length_map.
    unfold is_inverse.
    split; [reflexivity|]. split; [apply wf_tabulate|].
    split; [simpl; exact Hlen|]. split; [simpl; exact Hlen|].
    split.
    + rewrite mm_diag_l by (simpl; exact Hlen).
      change (ncols (diag_mat (map Rinv z))) with (length (map Rinv z)).
      change (nrows (diag_mat z)) with (length z).
      rewrite Hlen. f_equal. apply tabulate_ext. intros i j Hi Hj.
      rewrite entry_diag_mat by (rewrite Hlen; assumption).
      rewrite nth_map_Rinv by exact Hi.
      destruct (i =? j)%nat; [apply Rinv_r; now apply Hnz | lra].
    + rewrite mm_diag_r by (simpl; exact Hlen).
      change (nrows (diag_mat (map Rinv z))) with (length (map Rinv z)).
      change (nrows (diag_mat z)) with (length z).
      rewrite Hlen. f_equal. apply tabulate_ext. intros i j Hi Hj.
      rewrite entry_diag_mat by (rewrite Hlen; assumption).
      rewrite nth_map_Rinv by exact Hi.
      destruct (Nat.eqb_spec i j) as [->|Hne]; [apply Rinv_l; now apply Hnz | lra].
Qed.

Lemma inverse_diag_ok (z : list R) :
  all_nonzero z -> inverse (diag_mat z) = Ok (diag_mat (map Rinv z)).
Proof.
  intros Hnz. unfold inverse.
  destruct (excluded_middle_informative _) as [H|H].
  - destruct (constructive_indefinite_description _ H) as [W HW]; simpl.
    apply is_inverse_diag in HW. now destruct HW as [_ ->].
  - exfalso. apply H. exists (diag_mat (map Rinv z)).
    now apply is_inverse_diag.
Qed.

Lemma inverse_diag_singular (z : list R) :
  ~ all_nonzero z -> inverse (diag_mat z) = Raise (RuntimeError "singular").
Proof.
  intros Hz. unfold inverse.
  destruct (excluded_middle_informative _) as [H|H]; [|reflexivity].
  exfalso. destruct H as [W HW]. apply is_inverse_diag in HW.
  exact (Hz (proj1 HW)).
Qed.

Lemma bidx_in_range (a i : nat) : (i < a)%nat -> bidx a i = i.
Proof. unfold bidx. destruct (Nat.eqb_spec a 1); lia. Qed.

Lemma bdim_same (a : nat) : bdim a a = Some a.
Proof. unfold bdim. now rewrite Nat.eqb_refl. Qed.

(** On tensors of one shape the operation is applied entry by entry. *)
Lemma pointwise_same_shape (op : R -> R -> R) (A B : tensor) :
  nrows A = nrows B -> ncols A = ncols B ->
  pointwise op A B =
  Ok (tabulate (nrows A) (ncols A) (fun i j => op (entry A i j) (entry B i j))).
Proof.
  intros Hr Hc. unfold pointwise. rewrite <- Hr, <- Hc, !bdim_same.
  f_equal. apply tabulate_ext. intros i j Hi Hj.
  now rewrite !bidx_in_range.
Qed.

End TorchFacts.

(** ** The co-occurrence matrices *)

Section Cooccurrence.

Open Scope R_scope.

Lemma sum_upto_ge_term (n i : nat) (f : nat -> R) :
  (forall k, (k < n)%nat -> 0 <= f k) -> (i < n)%nat -> f i <= sum_upto n f.
Proof.
  induction n as [|n IH]; intros Hf Hi; [lia|]. simpl.
  assert (0 <= sum_upto n f) by (apply sum_upto_nonneg; intros; apply Hf; lia).
  assert (0 <= f n) by (apply Hf; lia).
  destruct (Nat.eq_dec i n) as [->|Hne]; [lra|].
  assert (f i <= sum_upto n f) by (apply IH; [intros; apply Hf|]; lia). lra.
Qed.

Lemma cooccurrence_ok (y : tensor) :
  cooccurrence y = Ok (tabulate (ncols y) (ncols y) (gram y)).
Proof.
  unfold cooccurrence. rewrite mm_ok by reflexivity. f_equal.
  apply tabulate_ext. intros i j Hi Hj. unfold gram.
  apply sum_upto_ext. intros k' Hk. simpl in Hk.
  unfold t. now rewrite entry_tabulate.
Qed.

Lemma gram_sym (y : tensor) (i j : nat) : gram y i j = gram y j i.
Proof. unfold gram. apply sum_upto_ext. intros; apply Rmult_comm. Qed.

Lemma gram_symmetric (y : tensor) (n : nat) : symmetric (tabulate n n (gram y)).
Proof.
  unfold symmetric, t; simpl. apply tabulate_ext. intros i j Hi Hj.
  rewrite entry_tabulate by assumption. apply gram_sym.
Qed.

Lemma gram_diag_pos (y : tensor) (j : nat) :
  (exists i, (i < nrows y)%nat /\ entry y i j <> 0) -> 0 < gram y j j.
Proof.
  intros [i [Hi Hnz]]. unfold gram.
  apply Rlt_le_trans with (entry y i j * entry y i j); [nra|].
  apply (sum_upto_ge_term (fun k => entry y k j * entry y k j)); [|exact Hi].
  intros k' _. nra.
Qed.

Lemma length_diag_vec (A : tensor) :
  length (diag_vec A) = Nat.min (nrows A) (ncols A).
Proof. unfold diag_vec. now rewrite length_map, length_seq. Qed.

Lemma nth_diag_vec (A : tensor) (i : nat) :
  (i < Nat.min (nrows A) (ncols A))%nat -> nth i (diag_vec A) 0 = entry A i i.
Proof. intros Hi. unfold diag_vec. now rewrite nth_map_seq. Qed.

(** Lines 187-189 on a square matrix whose diagonal has no zero. *)
Lemma normalised_cooccurrence_ok (A : tensor) :
  nrows A = ncols A -> all_nonzero (diag_vec A) ->
  normalised_cooccurrence A =
  Ok (tabulate (nrows A) (nrows A)
        (fun i j => entry A i j * / entry A j j + / entry A i i * entry A i j)).
Proof.
  intros Hsq Hnz. unfold normalised_cooccurrence.
  assert (Hlen : length (map Rinv (diag_vec A)) = nrows A).
  { rewrite length_map, length_diag_vec. lia. }
  rewrite inverse_diag_ok by exact Hnz. cbn [rbind].
  rewrite mm_diag_r by congruence. cbn [rbind].
  rewrite mm_diag_l by congruence. cbn [rbind].
  unfold add. rewrite pointwise_same_shape by (simpl; congruence).
  f_equal. simpl. rewrite Hlen. apply tabulate_ext. intros i j Hi Hj.
  rewrite !entry_tabulate by (try rewrite Hlen; try rewrite <- Hsq; assumption).
  rewrite !nth_map_Rinv by (rewrite length_diag_vec; lia).
  now rewrite !nth_diag_vec by lia.
Qed.

Lemma normalised_cooccurrence_singular (A : tensor) :
  ~ all_nonzero (diag_vec A) ->
  normalised_cooccurrence A = Raise (RuntimeError "singular").
Proof.
  intros Hz. unfold normalised_cooccurrence.
  now rewrite inverse_diag_singular.
Qed.

(** C7. For a binary label matrix with no all-zero column, the
    co-occurrence matrix [A] of line 186 is symmetric and its diagonal is
    strictly positive, so that lines 187-189 go through without a singular
    [Z]; for the matrix [[1,0,1],[0,1,1]] of the specification, [A] is
    [[1,0,1],[0,1,1],[1,1,2]] and [Z] is diag(1,1,2). *)
Theorem cooccurrence_symmetric_positive (Y : tensor) :
  binary Y -> no_zero_column Y ->
  (exists A, cooccurrence Y = Ok A /\ symmetric A /\
             (forall j, (j < ncols Y)%nat -> 0 < entry A j j) /\
             exists AZ, normalised_cooccurrence A = Ok AZ) /\
  (cooccurrence (of_rows [[1; 0; 1]; [0; 1; 1]]) =
     Ok (of_rows [[1; 0; 1]; [0; 1; 1]; [1; 1; 2]]) /\
   diag_mat (diag_vec (of_rows [[1; 0; 1]; [0; 1; 1]; [1; 1; 2]])) =
     of_rows [[1; 0; 0]; [0; 1; 0]; [0; 0; 2]]).
Proof.
  intros _ Hcol. split.
  - exists (tabulate (ncols Y) (ncols Y) (gram Y)).
    assert (Hpos : forall j, (j < ncols Y)%nat ->
              0 < entry (tabulate (ncols Y) (ncols Y) (gram Y)) j j).
    { intros j Hj. rewrite entry_tabulate by exact Hj.
      apply gram_diag_pos. now apply Hcol. }
    split; [apply cooccurrence_ok|]. split; [apply gram_symmetric|].
    split; [exact Hpos|].
    eexists. apply normalised_cooccurrence_ok; [reflexivity|].
    apply all_nonzero_nth. intros i Hi.
    rewrite length_diag_vec in Hi. simpl in Hi.
    rewrite nth_diag_vec by exact Hi.
    apply Rgt_not_eq. apply Hpos. lia.
  - split.
    + unfold cooccurrence, mm, t, gram, tabulate, of_rows, entry; simpl.
      repeat f_equal; lra.
    + unfold diag_mat, diag_vec, tabulate, of_rows, entry; simpl.
      reflexivity.
Qed.

(** ** The GLAS regulariser *)

Lemma div_pos : 0 < div.
Proof.
  unfold div. apply Rdiv_lt_0_compat; [lra|]. apply pow_lt. lra.
Qed.

Lemma latent_cooccurrence_ok (m : glasxc params) (y v : tensor) :
  encode_output m cur_device y = Ok v ->
  latent_cooccurrence m y = Ok (tabulate (ncols v) (ncols v) (gram v)).
Proof.
  intros Hv. unfold latent_cooccurrence. rewrite Hv. cbn [rbind].
  apply cooccurrence_ok.
Qed.

Lemma all_nonzero_diag_gram (y : tensor) :
  all_nonzero (diag_vec (tabulate (ncols y) (ncols y) (gram y))) <->
  forall i, (i < ncols y)%nat -> gram y i i <> 0.
Proof.
  rewrite all_nonzero_nth, length_diag_vec. simpl. rewrite Nat.min_id.
  split; intros H i Hi; specialize (H i Hi).
  - rewrite nth_diag_vec in H by (simpl; lia).
    now rewrite entry_tabulate in H.
  - rewrite nth_diag_vec by (simpl; lia).
    now rewrite entry_tabulate.
Qed.

(** Lines 186-190 when no label of the batch has a zero count. *)
Lemma mean_cooccurrence_ok (y : tensor) :
  (forall i, (i < ncols y)%nat -> gram y i i <> 0) ->
  mean_cooccurrence y =
  Ok (tabulate (ncols y) (ncols y)
        (fun i j => mean * (gram y i j * / gram y j j + / gram y i i * gram y i j))).
Proof.
  intros Hnz. unfold mean_cooccurrence.
  rewrite cooccurrence_ok. cbn [rbind].
  rewrite normalised_cooccurrence_ok
    by (try reflexivity; now apply all_nonzero_diag_gram).
  cbn [rbind]. f_equal. unfold scal. simpl. apply tabulate_ext. intros i j Hi Hj.
  now rewrite !entry_tabulate.
Qed.

Lemma mean_cooccurrence_singular (y : tensor) :
  ~ (forall i, (i < ncols y)%nat -> gram y i i <> 0) ->
  mean_cooccurrence y = Raise (RuntimeError "singular").
Proof.
  intros Hz. unfold mean_cooccurrence.
  rewrite cooccurrence_ok. cbn [rbind].
  rewrite normalised_cooccurrence_singular; [reflexivity|].
  now rewrite all_nonzero_diag_gram.
Qed.

(** The value returned by lines 191-193 is the scaled sum of squares. *)
Lemma loss_glas_value (m : glasxc params) (y : tensor) (smp : sampled) (l : R) :
  loss_glas m y smp = Ok l ->
  exists V M g, latent_cooccurrence m y = Ok V /\ mean_cooccurrence y = Ok M /\
                sub V M = Ok g /\ l = div * sum_squares g.
Proof.
  unfold loss_glas. intros H.
  destruct (latent_cooccurrence m y) as [V|e]; [|discriminate].
  destruct (mean_cooccurrence y) as [M|e]; [|discriminate].
  cbn [rbind] in H. destruct (sub V M) as [g|e] eqn:Hg; [|discriminate].
  cbn [rbind] in H. apply Ok_inj in H.
  exists V, M, g. repeat split; [exact Hg|]. rewrite <- H.
  now rewrite Rmult_assoc, norm_fro_sqr.
Qed.

Lemma sub_self (V : tensor) :
  sub V V = Ok (tabulate (nrows V) (ncols V) (fun _ _ => 0)).
Proof.
  unfold sub. rewrite pointwise_same_shape by reflexivity. f_equal.
  apply tabulate_ext. intros. lra.
Qed.

Lemma sum_squares_tabulate (n k : nat) (f : nat -> nat -> R) :
  sum_squares (tabulate n k f) =
  sum_upto n (fun i => sum_upto k (fun j => f i j * f i j)).
Proof.
  unfold sum_squares; simpl. apply sum_upto_ext. intros i Hi.
  apply sum_upto_ext. intros j Hj. now rewrite entry_tabulate.
Qed.

(** C6. Whenever lines 184-193 return, the value is not negative, and it is
    zero when the latent co-occurrence [V] equals [M]. *)
Theorem loss_glas_nonneg (m : glasxc params) (y : tensor) (smp : sampled) (l : R) :
  loss_glas m y smp = Ok l ->
  0 <= l /\
  (forall V M, latent_cooccurrence m y = Ok V -> mean_cooccurrence y = Ok M ->
               V = M -> l = 0).
Proof.
  intros H. destruct (loss_glas_value _ _ _ H) as (V & M & g & HV & HM & Hg & ->).
  split.
  - apply Rmult_le_pos; [apply Rlt_le, div_pos | apply sum_squares_nonneg].
  - intros V' M' HV' HM' Heq. rewrite HV in HV'. rewrite HM in HM'.
    apply Ok_inj in HV'. apply Ok_inj in HM'. subst V' M'. subst M.
    rewrite sub_self in Hg. apply Ok_inj in Hg. subst g.
    rewrite sum_squares_tabulate.
    rewrite sum_upto_zero; [lra|]. intros i _.
    apply sum_upto_zero. intros j _. lra.
Qed.

Lemma some_zero_or_none (n : nat) (f : nat -> R) :
  (forall i, (i < n)%nat -> f i <> 0) \/ (exists i, (i < n)%nat /\ f i = 0).
Proof.
  induction n as [|n [IH|[i [Hi Hz]]]].
  - left. intros i Hi. lia.
  - destruct (Req_dec_T (f n) 0) as [Hz|Hnz].
    + right. exists n. split; [lia | exact Hz].
    + left. intros i Hi. destruct (Nat.eq_dec i n) as [->|Hne]; [exact Hnz|].
      apply IH. lia.
  - right. exists i. split; [lia | exact Hz].
Qed.

(** The diagonal of [Z] holds the label counts of the batch. *)
Lemma entry_Z_diag (y : tensor) (i : nat) :
  (i < ncols y)%nat ->
  entry (diag_mat (diag_vec (tabulate (ncols y) (ncols y) (gram y)))) i i = gram y i i.
Proof.
  intros Hi.
  rewrite entry_diag_mat by (rewrite length_diag_vec; simpl; lia).
  rewrite Nat.eqb_refl, nth_diag_vec by (simpl; lia).
  now rewrite entry_tabulate.
Qed.

(** Entries of the products of [A] with the inverse of [Z]. *)
Lemma product_entry_inverse_r (n : nat) (A : tensor) (z : list R) (i j : nat) :
  length z = n -> (j < n)%nat ->
  product_entry n A (diag_mat (map Rinv z)) i j = entry A i j * / nth j z 0.
Proof.
  intros Hlen Hj. unfold product_entry.
  assert (Hl : length (map Rinv z) = n) by (now rewrite length_map).
  rewrite (sum_upto_single (i := j)); [|exact Hj|].
  - rewrite entry_diag_mat by lia.
    now rewrite Nat.eqb_refl, nth_map_Rinv by lia.
  - intros k' Hk Hne. rewrite entry_diag_mat by lia.
    destruct (Nat.eqb_spec k' j); [congruence | lra].
Qed.

Lemma product_entry_inverse_l (n : nat) (A : tensor) (z : list R) (i j : nat) :
  length z = n -> (i < n)%nat ->
  product_entry n (diag_mat (map Rinv z)) A i j = / nth i z 0 * entry A i j.
Proof.
  intros Hlen Hi. unfold product_entry.
  assert (Hl : length (map Rinv z) = n) by (now rewrite length_map).
  rewrite (sum_upto_single (i := i)); [|exact Hi|].
  - rewrite entry_diag_mat by lia.
    now rewrite Nat.eqb_refl, nth_map_Rinv by lia.
  - intros k' Hk Hne. rewrite entry_diag_mat by lia.
    destruct (Nat.eqb_spec i k'); [congruence | lra].
Qed.

(** Lines 184-193 on an embedding as wide as the label matrix, when no
    label of the batch has a zero count. *)
Lemma loss_glas_ok (m : glasxc params) (y v : tensor) (smp : sampled) :
  encode_output m cur_device y = Ok v -> ncols v = ncols y ->
  (forall i, (i < ncols y)%nat -> gram y i i <> 0) ->
  loss_glas m y smp =
  Ok (div * sum_upto (ncols y) (fun i => sum_upto (ncols y) (fun j =>
        (gram v i j - mean * (gram y i j * / gram y j j + / gram y i i * gram y i j)) *
        (gram v i j - mean * (gram y i j * / gram y j j + / gram y i i * gram y i j))))).
Proof.
  intros Hv Hd Hnz. unfold loss_glas.
  rewrite (latent_cooccurrence_ok Hv), Hd. cbn [rbind].
  rewrite mean_cooccurrence_ok by exact Hnz. cbn [rbind].
  unfold sub. rewrite pointwise_same_shape by reflexivity. cbn [rbind].
  rewrite Rmult_assoc, norm_fro_sqr. simpl nrows. simpl ncols.
  rewrite sum_squares_tabulate. do 2 f_equal.
  apply sum_upto_ext. intros i Hi. apply sum_upto_ext. intros j Hj.
  now rewrite !entry_tabulate.
Qed.

(** C1, as the script has it.  When the embedding [v] of the label matrix
    has as many columns as there are labels, so that [V] has the dimension
    of [A], lines 184-193 compute
    scale_constant * || V - 0.5 * (A Z^-1 + Z^-1 A) ||_F ^ 2 with
    [V] the product of the transpose of [v] with [v], [A] that of the label
    matrix, [Z] the diagonal matrix that carries the diagonal of [A] (the
    label counts of the batch) and scale_constant = 1 / 2456 ^ 2, and they
    raise exactly when some diagonal entry of [Z] is zero.  Whatever the
    width of [v], they raise exactly when some diagonal entry of [Z] is
    zero or the shapes of [V] and [M] do not broadcast at line 191. *)
Theorem loss_glas_formula (m : glasxc params) (y v : tensor) (smp : sampled) :
  encode_output m cur_device y = Ok v ->
  let L := ncols y in
  let V := tabulate (ncols v) (ncols v) (gram v) in
  let A := tabulate L L (gram y) in
  let Z := tabulate L L (fun i j => if (i =? j)%nat then gram y i i else 0) in
  latent_cooccurrence m y = Ok V /\ cooccurrence y = Ok A /\
  diag_mat (diag_vec A) = Z /\
  (ncols v = L ->
   ((forall i, (i < L)%nat -> entry Z i i <> 0) ->
    exists W, is_inverse Z W /\
              loss_glas m y smp = Ok (glas_formula L V A W)) /\
   (raises (loss_glas m y smp) <-> exists i, (i < L)%nat /\ entry Z i i = 0)) /\
  (raises (loss_glas m y smp) <->
   (exists i, (i < L)%nat /\ entry Z i i = 0) \/ bdim (ncols v) L = None).
Proof.
  intros Hv L V A Z.
  assert (Hlen : length (diag_vec A) = L).
  { rewrite length_diag_vec. simpl. apply Nat.min_id. }
  assert (HZ : diag_mat (diag_vec A) = Z).
  { unfold diag_mat. rewrite Hlen. apply tabulate_ext. intros i j Hi Hj.
    destruct (i =? j)%nat; [|reflexivity].
    rewrite nth_diag_vec by (simpl; fold L; lia).
    unfold A. now rewrite entry_tabulate. }
  assert (HZd : forall i, (i < L)%nat -> entry Z i i = gram y i i).
  { intros i Hi. unfold Z. rewrite entry_tabulate by exact Hi.
    now rewrite Nat.eqb_refl. }
  assert (Hcount : (forall i, (i < L)%nat -> entry Z i i <> 0) ->
                   forall i, (i < ncols y)%nat -> gram y i i <> 0).
  { intros Hnz i Hi. rewrite <- HZd by exact Hi. now apply Hnz. }
  assert (Hzero : (exists i, (i < L)%nat /\ entry Z i i = 0) ->
                  raises (loss_glas m y smp)).
  { intros [i [Hi Hz]]. unfold loss_glas.
    rewrite (latent_cooccurrence_ok Hv). cbn [rbind].
    rewrite mean_cooccurrence_singular.
    - eexists. reflexivity.
    - intros Hnz. apply (Hnz i Hi). rewrite <- HZd by exact Hi. exact Hz. }
  assert (Hok : ncols v = L ->
                (forall i, (i < L)%nat -> entry Z i i <> 0) ->
                exists W, is_inverse Z W /\
                  loss_glas m y smp = Ok (glas_formula L V A W)).
  { intros Hd Hnz. pose proof (Hcount Hnz) as Hg.
    exists (diag_mat (map Rinv (diag_vec A))). split.
    - rewrite <- HZ. apply is_inverse_diag. split; [|reflexivity].
      now apply all_nonzero_diag_gram.
    - rewrite (loss_glas_ok smp Hv Hd Hg). f_equal.
      unfold glas_formula, div. f_equal.
      apply sum_upto_ext. intros i Hi. apply sum_upto_ext. intros j Hj.
      rewrite product_entry_inverse_r by assumption.
      rewrite product_entry_inverse_l by assumption.
      rewrite !nth_diag_vec by (simpl; fold L; lia).
      unfold V, A. rewrite !entry_tabulate by (try rewrite Hd; assumption).
      unfold mean. simpl. ring. }
  assert (Hshape : (forall i, (i < L)%nat -> entry Z i i <> 0) ->
                   (raises (loss_glas m y smp) <-> bdim (ncols v) L = None)).
  { intros Hnz. pose proof (Hcount Hnz) as Hg. unfold loss_glas.
    rewrite (latent_cooccurrence_ok Hv). cbn [rbind].
    rewrite mean_cooccurrence_ok by exact Hg. cbn [rbind].
    unfold sub, pointwise. cbn [nrows ncols tabulate]. fold L.
    destruct (bdim (ncols v) L) as [n|]; cbn [rbind].
    - split; [intros [e He]; discriminate | discriminate].
    - split; [reflexivity | intros _; eexists; reflexivity]. }
  split; [now apply latent_cooccurrence_ok|]. split; [apply cooccurrence_ok|].
  split; [exact HZ|]. split.
  - intros Hd. split; [exact (Hok Hd)|]. split; [|exact Hzero].
    intros Hr.
    destruct (some_zero_or_none L (fun i => entry Z i i)) as [Hnz|Hz];
      [|exact Hz].
    destruct (Hok Hd Hnz) as [W [_ HW]]. destruct Hr as [e He]. congruence.
  - split.
    + intros Hr.
      destruct (some_zero_or_none L (fun i => entry Z i i)) as [Hnz|Hz];
        [|left; exact Hz].
      right. now apply (Hshape Hnz).
    + intros [Hz|Hb]; [exact (Hzero Hz)|].
      destruct (some_zero_or_none L (fun i => entry Z i i)) as [Hnz|Hz];
        [|exact (Hzero Hz)].
      now apply (Hshape Hnz).
Qed.

End Cooccurrence.

(** ** The sampling of the label matrix *)

Lemma lookup_numpy : lookup_name "numpy" = Raise (NameError "numpy").
Proof. reflexivity. Qed.

Lemma lookup_batch_size : lookup_name "batch_size" = Raise (NameError "batch_size").
Proof. reflexivity. Qed.

(** Lines 174-180 never get past line 178 (line 177 on an accelerator). *)
Lemma sample_label_matrix_raises (y : tensor) :
  sample_label_matrix y =
  match cur_device with
  | cpu => Raise (NameError "numpy")
  | cuda => Raise (TypeError "can't convert CUDA tensor to numpy")
  end.
Proof.
  unfold sample_label_matrix. destruct cur_device; reflexivity.
Qed.

(** No batch gets through lines 162-217. *)
Lemma batch_step_never_completes (b : batch) (s : run_state) :
  exists e s', batch_step b s = Failed e s'.
Proof.
  destruct b as [x y]. unfold batch_step, bind, modify, get, lift.
  destruct (forward _ cur_device x y) as [[[inp out] reg_fp]|e].
  - rewrite sample_label_matrix_raises.
    destruct cur_device; eexists; eexists; reflexivity.
  - eexists; eexists; reflexivity.
Qed.

(** C2. Line 178 reads the names [numpy] and [batch_size], which the module
    binds nowhere, so that the sampling of lines 174-180 raises on every
    batch; and what it would bind ([t3], [indices], [y_sampled]) is not read
    by lines 184-193: the loss is the same whatever their values, [V] comes
    from the embedding of the whole label matrix and [A] from the whole
    label matrix, over all its columns. *)
Theorem sampling_unbound_and_unused :
  (In "numpy"%string names_read_by_sampling /\
   In "batch_size"%string names_read_by_sampling) /\
  (lookup_name "numpy" = Raise (NameError "numpy") /\
   lookup_name "batch_size" = Raise (NameError "batch_size")) /\
  (forall y, raises (sample_label_matrix y)) /\
  (forall m y smp smp', loss_glas m y smp = loss_glas m y smp') /\
  (forall m y v, encode_output m cur_device y = Ok v ->
     latent_cooccurrence m y = Ok (tabulate (ncols v) (ncols v) (gram v))) /\
  (forall y, cooccurrence y = Ok (tabulate (ncols y) (ncols y) (gram y))).
Proof.
  split; [split; simpl; tauto|].
  split; [split; reflexivity|].
  split.
  { intros y. rewrite sample_label_matrix_raises.
    destruct cur_device; eexists; reflexivity. }
  split; [reflexivity|].
  split; [intros m y v; apply latent_cooccurrence_ok | apply cooccurrence_ok].
Qed.

(** ** The loss and the update *)

Lemma glasxc_eta (m : glasxc params) : mkGlasXC (weights m) (placement m) = m.
Proof. now destruct m. Qed.

(** The function handed to the optimiser, at the current parameters. *)
Lemma net_loss_at_weights (m : glasxc params) (x y inp out reg_fp : tensor)
      (smp : sampled) (bce lg : R) :
  forward m cur_device x y = Ok (inp, out, reg_fp) ->
  loss_glas m y smp = Ok lg ->
  binary_cross_entropy reg_fp y = Ok bce ->
  net_loss m x y smp (weights m) = Ok (bce + LAMBDA * lg)%R.
Proof.
  intros Hf Hg Hb. unfold net_loss. rewrite glasxc_eta, Hf. cbn [rbind].
  rewrite Hg. cbn [rbind]. now rewrite Hb.
Qed.

Lemma report_progress_cases (loss : R) (s : run_state) :
  (exists e, report_progress loss s = Failed e s) \/
  report_progress loss s = Done tt s \/
  (exists ev, report_progress loss s = Done tt (emit_event ev s)).
Proof.
  unfold report_progress, bind, get, lift.
  destruct (py_mod (all_iters s) (interval args)) as [r|e].
  - destruct (r =? 0)%Z.
    + unfold read_epoch. destruct (epoch s) as [e|].
      * right. right. eexists. reflexivity.
      * left. eexists. reflexivity.
    + right. left. reflexivity.
  - left. eexists. reflexivity.
Qed.

(** C3. When lines 184-217 complete on a batch, the value appended to
    [CLASS_LOSS] is the binary cross entropy of the prediction and the
    labels plus 10 times the GLAS loss, and the update of the parameters is
    the one along the gradient of that sum: the function differentiated
    takes this value at the current parameters. *)
Theorem recorded_loss_is_bce_plus_glas
        (x y reg_fp : tensor) (smp : sampled) (s s' : run_state) :
  loss_and_update x y reg_fp smp s = Done tt s' ->
  exists bce lg,
    binary_cross_entropy reg_fp y = Ok bce /\
    loss_glas (Glas_XC s) y smp = Ok lg /\
    CLASS_LOSS s' = CLASS_LOSS s ++ [(bce + 10 * lg)%R] /\
    (weights (Glas_XC s'), optimizer s') =
      backward_and_step (optimizer s) (net_loss (Glas_XC s) x y smp)
                        (weights (Glas_XC s)) /\
    (forall inp out, forward (Glas_XC s) cur_device x y = Ok (inp, out, reg_fp) ->
       net_loss (Glas_XC s) x y smp (weights (Glas_XC s)) = Ok (bce + 10 * lg)%R).
Proof.
  unfold loss_and_update, bind, get, lift, modify. intros H.
  destruct (loss_glas (Glas_XC s) y smp) as [lg|e] eqn:Hg; [|discriminate].
  destruct (binary_cross_entropy reg_fp y) as [bce|e] eqn:Hb; [|discriminate].
  destruct (backward_and_step _ _ _) as [w o] eqn:Hstep.
  exists bce, lg. split; [reflexivity|]. split; [reflexivity|].
  match type of H with
  | match report_progress ?l ?s0 with _ => _ end = _ =>
      destruct (report_progress_cases l s0) as [[e He]|[He|[ev He]]];
      rewrite He in H; [discriminate| |]
  end.
  - injection H as <-. simpl. split; [reflexivity|]. split; [reflexivity|].
    intros inp out Hf. eapply net_loss_at_weights; eassumption.
  - injection H as <-. simpl. split; [reflexivity|]. split; [reflexivity|].
    intros inp out Hf. eapply net_loss_at_weights; eassumption.
Qed.

(** ** The progress line *)

(** Lines 213-215 by themselves, were they reached with [--interval 0]:
    the remainder of line 213 is a division by zero, nothing is printed,
    and lines 184-217 do not get to their end. *)
Lemma report_progress_at_interval_zero (loss : R) (s : run_state) :
  interval args = 0%Z ->
  report_progress loss s = Failed ZeroDivisionError s /\
  (forall x y reg_fp smp s', loss_and_update x y reg_fp smp s <> Done tt s').
Proof.
  intros H0.
  assert (Hrep : forall l s0, report_progress l s0 = Failed ZeroDivisionError s0).
  { intros l s0. unfold report_progress, bind, get, lift, py_mod.
    now rewrite H0. }
  split; [apply Hrep|].
  intros x y reg_fp smp s'. unfold loss_and_update, bind, get, lift, modify.
  destruct (loss_glas (Glas_XC s) y smp) as [lg|e]; [|discriminate].
  destruct (binary_cross_entropy reg_fp y) as [bce|e]; [|discriminate].
  destruct (backward_and_step _ _ _) as [w o].
  now rewrite Hrep.
Qed.

(** Lines 213-215 by themselves, were they reached with the default
    [--interval -1]: the remainder of line 213 is zero whatever the
    iteration count, and the line is printed. *)
Lemma report_progress_at_default_interval (loss : R) (s : run_state) (e : Z) :
  interval args = (-1)%Z -> epoch s = Some e ->
  report_progress loss s =
  Done tt (emit_event (ProgressLine e (epochs args) (cur_no s) len_loader loss) s).
Proof.
  intros Hi He. unfold report_progress, bind, get, lift, py_mod, read_epoch, emit, modify.
  rewrite Hi. simpl (-1 =? 0)%Z. cbv iota.
  assert (Hm : (all_iters s mod -1 = 0)%Z).
  { rewrite <- (Z.mul_1_r (all_iters s)) at 1.
    replace (all_iters s * 1)%Z with (- all_iters s * -1)%Z by ring.
    apply Z.mod_mul. lia. }
  rewrite Hm. simpl. now rewrite He.
Qed.

(** ** The loader *)

(** The groups of a loader cover the samples, in order. *)
Lemma groups_of_concat {A : Type} (fuel b : nat) (l : list A) :
  (0 < b)%nat -> (length l <= fuel)%nat -> concat (groups_of fuel b l) = l.
Proof.
  intros Hb. revert l. induction fuel as [|fuel IH]; intros l Hl.
  - destruct l; [reflexivity | simpl in Hl; lia].
  - destruct l as [|a l]; [reflexivity|].
    cbn [groups_of concat]. rewrite IH.
    + apply firstn_skipn.
    + rewrite length_skipn. cbn [length] in Hl |- *. lia.
Qed.

(** The column indices of the labels present in the matrix
    [[1,0,1],[0,1,1]], read off the index pairs of its non-zero entries as
    lines 175-176 do. *)
Example present_labels_example :
  unique (odd_positions (flatten_pairs
    [(0, 0); (0, 2); (1, 1); (1, 2)]%nat)) = [0; 1; 2]%nat.
Proof. reflexivity. Qed.

(** ** The order of the data *)









(** ** The end of the run *)

Lemma final_state_bind {A B : Type} (p : prog A) (k : A -> prog B) (s : run_state) :
  final_state (bind p k s) =
  match p s with
  | Done a s' => final_state (k a s')
  | Failed _ s' => s'
  end.
Proof. unfold bind. now destruct (p s). Qed.

Lemma emits_ret {A : Type} (P : event -> Prop) (a : A) : emits P (ret a).
Proof. intros s. exists []. split; [simpl; now rewrite app_nil_r | constructor]. Qed.

Lemma emits_lift {A : Type} (P : event -> Prop) (r : result A) : emits P (lift r).
Proof.
  intros s. exists []. split; [|constructor].
  unfold lift. destruct r; simpl; now rewrite app_nil_r.
Qed.

Lemma emits_get (P : event -> Prop) : emits P get.
Proof. intros s. exists []. split; [simpl; now rewrite app_nil_r | constructor]. Qed.

Lemma emits_modify (P : event -> Prop) (f : run_state -> run_state) :
  (forall s, output (f s) = output s) -> emits P (modify f).
Proof.
  intros Hf s. exists []. split; [simpl; now rewrite app_nil_r, Hf | constructor].
Qed.

Lemma emits_emit (P : event -> Prop) (e : event) : P e -> emits P (emit e).
Proof.
  intros He s. exists [e]. split; [reflexivity | now repeat constructor].
Qed.

Lemma emits_read_epoch (P : event -> Prop) : emits P read_epoch.
Proof.
  intros s. exists []. split; [|constructor].
  unfold read_epoch. destruct (epoch s); simpl; now rewrite app_nil_r.
Qed.

Lemma emits_bind {A B : Type} (P : event -> Prop) (p : prog A) (k : A -> prog B) :
  emits P p -> (forall a, emits P (k a)) -> emits P (bind p k).
Proof.
  intros Hp Hk s. rewrite final_state_bind.
  destruct (Hp s) as [l1 [H1 HP1]].
  destruct (p s) as [a s1|e s1]; simpl in H1.
  - destruct (Hk a s1) as [l2 [H2 HP2]]. exists (l1 ++ l2). split.
    + now rewrite H2, H1, app_assoc.
    + now apply Forall_app.
  - exists l1. now split.
Qed.

Lemma emits_iterate (P : event -> Prop) (dl : DataLoader) : emits P (iterate dl).
Proof.
  intros s. exists []. split; [|constructor]. unfold iterate.
  destruct (dl_shuffle dl); [destruct (randperm _ _)|]; simpl; now rewrite app_nil_r.
Qed.

Lemma emits_predictions (P : event -> Prop) (m : glasxc params) (dl : DataLoader) :
  emits P (predictions m dl).
Proof.
  unfold predictions. apply emits_bind; [apply emits_iterate|].
  intros bs. apply emits_lift.
Qed.

Lemma emits_plot_graphs :
  emits (fun e => action_of e = Some Plots) plot_graphs.
Proof.
  unfold plot_graphs. destruct (plot args); [|apply emits_ret].
  apply emits_bind; [apply emits_get|]. intros s.
  repeat (apply emits_bind; [apply emits_lift|]; intros _).
  now apply emits_emit.
Qed.

Lemma emits_save_submodule (sub : submodule) :
  emits (fun e => action_of e = Some Saving) (save_submodule sub).
Proof.
  unfold save_submodule. apply emits_bind.
  - now apply emits_modify.
  - intros _. now apply emits_emit.
Qed.

Lemma emits_save_models :
  emits (fun e => action_of e = Some Saving) save_models.
Proof.
  unfold save_models. destruct (save_model args) as [choices|]; [|apply emits_ret].
  repeat (apply emits_bind; [|intros _]);
    repeat match goal with
           | |- emits _ (if ?c then _ else _) => destruct c
           | |- emits _ (bind _ _) => apply emits_bind; [|intros _]
           | |- emits _ (save_submodule _) => apply emits_save_submodule
           | |- emits _ (ret _) => apply emits_ret
           end.
Qed.

Lemma emits_prediction_on_test (tdl : option DataLoader) :
  emits (fun e => action_of e = Some HeldOutEvaluation) (prediction_on_test tdl).
Proof.
  unfold prediction_on_test. destruct tdl as [dl|]; [|apply emits_ret].
  apply emits_bind; [now apply emits_emit|]. intros _.
  apply emits_bind; [apply emits_get|]. intros s.
  apply emits_bind; [apply emits_predictions|]. intros py.
  apply emits_bind; [apply emits_lift|]. intros pn.
  apply emits_bind; [apply emits_read_epoch|]. intros _.
  now apply emits_emit.
Qed.

Lemma actions_of_one_kind (a : action) (l : list event) :
  Forall (fun e => action_of e = Some a) l -> actions l = repeat a (length l).
Proof.
  induction 1 as [|e l He _ IH]; [reflexivity|].
  unfold actions in *. simpl. rewrite He. simpl. now rewrite IH.
Qed.

Lemma actions_app (l1 l2 : list event) : actions (l1 ++ l2) = actions l1 ++ actions l2.
Proof. unfold actions. apply flat_map_app. Qed.

Lemma in_order_three (n1 n2 n3 : nat) :
  in_order script_rank
    (repeat Plots n1 ++ repeat Saving n2 ++ repeat HeldOutEvaluation n3) = true.
Proof.
  assert (H3 : forall n, in_order script_rank (repeat HeldOutEvaluation n) = true).
  { induction n as [|[|n] IH]; try reflexivity. exact IH. }
  assert (H2 : forall n, in_order script_rank
             (repeat Saving n ++ repeat HeldOutEvaluation n3) = true).
  { induction n as [|[|n] IH]; simpl.
    - apply H3.
    - destruct n3; [reflexivity|]. simpl. apply (H3 (S n3)).
    - exact IH. }
  induction n1 as [|[|n] IH]; simpl.
  - apply H2.
  - destruct n2; simpl.
    + destruct n3; [reflexivity|]. simpl. apply (H3 (S n3)).
    + apply (H2 (S n2)).
  - exact IH.
Qed.

(** C9, as the script has it.  What lines 237-293 show and write comes in
    the order of the lines: first the figure, then the files of the saved
    submodules, then the lines of the prediction on the test set; this
    holds also for a run that an exception cuts short. *)
Theorem run_end_in_script_order (tdl : option DataLoader) (s : run_state) :
  exists figs files tests,
    output (final_state (run_end tdl s)) = output s ++ figs ++ files ++ tests /\
    Forall (fun e => action_of e = Some Plots) figs /\
    Forall (fun e => action_of e = Some Saving) files /\
    Forall (fun e => action_of e = Some HeldOutEvaluation) tests /\
    in_order script_rank (actions (figs ++ files ++ tests)) = true.
Proof.
  assert (H : exists figs files tests,
    output (final_state (run_end tdl s)) = output s ++ figs ++ files ++ tests /\
    Forall (fun e => action_of e = Some Plots) figs /\
    Forall (fun e => action_of e = Some Saving) files /\
    Forall (fun e => action_of e = Some HeldOutEvaluation) tests).
  { unfold run_end. rewrite final_state_bind.
    destruct (emits_plot_graphs s) as [figs [H1 HP1]].
    destruct (plot_graphs s) as [[] s1|e s1]; simpl in H1.
    - rewrite final_state_bind.
      destruct (emits_save_models s1) as [files [H2 HP2]].
      destruct (save_models s1) as [[] s2|e s2]; simpl in H2.
      + destruct (emits_prediction_on_test tdl s2) as [tests [H3 HP3]].
        exists figs, files, tests. repeat split; try assumption.
        now rewrite H3, H2, H1, <- !app_assoc.
      + exists figs, files, []. repeat split; try assumption; [|constructor].
        now rewrite H2, H1, app_nil_r, <- app_assoc.
    - exists figs, [], []. repeat split; try assumption; try constructor.
      now rewrite H1, !app_nil_r. }
  destruct H as (figs & files & tests & Hout & H1 & H2 & H3).
  exists figs, files, tests. repeat split; try assumption.
  rewrite !actions_app.
  rewrite (actions_of_one_kind H1), (actions_of_one_kind H2), (actions_of_one_kind H3).
  apply in_order_three.
Qed.

(** ** Saving *)

Lemma chosen_In (c : save_choice) (l : list save_choice) :
  In c l -> chosen c l = true.
Proof.
  intros H. unfold chosen. apply existsb_exists. exists c. split; [exact H|].
  now destruct c.
Qed.

(** A saved submodule is asked for by [--save_model] under its own name
    or under 'all', which is what lines 260, 266 and 272 test. *)
Lemma saved_under_condition (c : save_choice) (sub : submodule)
      (choices : list save_choice) :
  In c choices -> saved_under c sub = true ->
  match sub with
  | input_encoder | input_decoder =>
      chosen SaveInputAE choices || chosen SaveAll choices
  | output_encoder | output_decoder =>
      chosen SaveOutputAE choices || chosen SaveAll choices
  | regressor => chosen SaveRegressor choices || chosen SaveAll choices
  end = true.
Proof.
  intros Hin Hs. apply chosen_In in Hin.
  destruct c, sub; try discriminate; rewrite Hin; auto using orb_true_r.
Qed.

(** C10. With a save directive that covers a submodule, lines 259-274
    return with that submodule of the network of the run moved to the CPU
    - the network object itself is changed, its parameters are not - and
    the prediction on the test set, which comes next, runs [predict] on
    this very network, so on a submodule that is no longer on the device
    of the run when that device is an accelerator. *)
Theorem saving_moves_submodules_to_cpu
        (choices : list save_choice) (c : save_choice) (sub : submodule)
        (s : run_state) :
  save_model args = Some choices -> In c choices -> saved_under c sub = true ->
  exists s',
    save_models s = Done tt s' /\
    placement (Glas_XC s') sub = cpu /\
    weights (Glas_XC s') = weights (Glas_XC s) /\
    (cur_device = cuda -> placement (Glas_XC s') sub <> cur_device) /\
    forall dl,
      bind save_models (fun _ => prediction_on_test (Some dl)) s =
      bind (emit TestHeader) (fun _ =>
        bind (predictions (Glas_XC s') dl) (fun py =>
          bind (lift (mean_metrics (fst py) (snd py))) (fun pn =>
            bind read_epoch (fun _ =>
              emit (TestLine K (fst pn) (snd pn)))))) s'.
Proof.
  intros Hsave Hin Hsub.
  pose proof (@saved_under_condition c sub choices Hin Hsub) as Hcond.
  assert (Hs : exists s', save_models s = Done tt s' /\
             placement (Glas_XC s') sub = cpu /\
             weights (Glas_XC s') = weights (Glas_XC s)).
  { unfold save_models. rewrite Hsave.
    destruct (chosen SaveInputAE choices || chosen SaveAll choices);
      destruct (chosen SaveOutputAE choices || chosen SaveAll choices);
      destruct (chosen SaveRegressor choices || chosen SaveAll choices);
      destruct sub; try discriminate Hcond;
      (eexists; split; [reflexivity | split; reflexivity]). }
  destruct Hs as (s' & Hs' & Hp & Hw).
  exists s'. split; [exact Hs'|]. split; [exact Hp|]. split; [exact Hw|].
  split; [intros Hc; rewrite Hp, Hc; discriminate|].
  intros dl. unfold bind at 1. rewrite Hs'. reflexivity.
Qed.

(** * Further properties of the script *)

(** ** The labels present in a batch (lines 174-176) *)

Lemma odd_positions_flatten (l : list (nat * nat)) :
  odd_positions (flatten_pairs l) = map snd l.
Proof.
  induction l as [|p l IH]; [reflexivity|].
  unfold flatten_pairs in *. simpl. now rewrite IH.
Qed.

Lemma In_nonzero (y : tensor) (i j : nat) :
  In (i, j) (nonzero y) <->
  (i < nrows y)%nat /\ (j < ncols y)%nat /\ entry y i j <> 0%R.
Proof.
  unfold nonzero. rewrite in_flat_map. split.
  - intros [i' [Hi H]]. apply in_seq in Hi. apply in_flat_map in H.
    destruct H as [j' [Hj H]]. apply in_seq in Hj.
    destruct (Req_dec_T (entry y i' j') 0) as [Hz|Hnz]; [destruct H|].
    destruct H as [H|[]]. injection H as <- <-. repeat split; try lia. exact Hnz.
  - intros (Hi & Hj & Hnz). exists i. split; [apply in_seq; lia|].
    apply in_flat_map. exists j. split; [apply in_seq; lia|].
    destruct (Req_dec_T (entry y i j) 0) as [Hz|_]; [contradiction|now left].
Qed.

Lemma In_insert_sorted (a x : nat) (l : list nat) :
  In x (insert_sorted a l) <-> x = a \/ In x l.
Proof.
  induction l as [|b l IH]; simpl.
  - intuition.
  - destruct (Nat.ltb_spec a b); [simpl; intuition|].
    destruct (Nat.eqb_spec a b) as [->|Hne]; simpl; [intuition|].
    rewrite IH. intuition.
Qed.

Lemma insert_sorted_sorted (a : nat) (l : list nat) :
  StronglySorted lt l -> StronglySorted lt (insert_sorted a l).
Proof.
  induction 1 as [|b l Hs IH Hb]; simpl.
  - repeat constructor.
  - destruct (Nat.ltb_spec a b) as [Hlt|Hge].
    + constructor; [now constructor|]. constructor; [exact Hlt|].
      rewrite Forall_forall in Hb |- *. intros x Hx. specialize (Hb x Hx). lia.
    + destruct (Nat.eqb_spec a b) as [->|Hne]; [now constructor|].
      constructor; [exact IH|].
      rewrite Forall_forall in Hb |- *. intros x Hx.
      apply In_insert_sorted in Hx. destruct Hx as [->|Hx]; [lia | now apply Hb].
Qed.

Lemma In_unique (x : nat) (l : list nat) : In x (unique l) <-> In x l.
Proof.
  induction l as [|a l IH]; simpl; [tauto|].
  rewrite In_insert_sorted, IH. intuition.
Qed.

Lemma unique_sorted (l : list nat) : StronglySorted lt (unique l).
Proof.
  induction l as [|a l IH]; simpl; [constructor | now apply insert_sorted_sorted].
Qed.

(** X5. The indices that lines 174-176 leave in [t1] are exactly the
    columns of the label matrix with a non-zero entry, each once and in
    increasing order, as the comments of those lines say. *)
Theorem label_columns_present (y : tensor) :
  StronglySorted lt (label_columns y) /\
  forall j, In j (label_columns y) <->
            (j < ncols y)%nat /\ exists i, (i < nrows y)%nat /\ entry y i j <> 0%R.
Proof.
  split; [apply unique_sorted|].
  intros j. unfold label_columns.
  rewrite In_unique, odd_positions_flatten, in_map_iff. split.
  - intros [[i j'] [Hj Hin]]. simpl in Hj. subst j'.
    apply In_nonzero in Hin. destruct Hin as (Hi & Hj & Hnz).
    split; [exact Hj|]. now exists i.
  - intros [Hj [i [Hi Hnz]]]. exists (i, j). split; [reflexivity|].
    now apply In_nonzero.
Qed.

(** ** The progress line at the other intervals (lines 213-215) *)

Lemma py_mod_zero_iff (a b : Z) :
  b <> 0%Z -> (py_mod a b = Ok 0%Z <-> (Z.abs b | a)%Z).
Proof.
  intros Hb. unfold py_mod. destruct (Z.eqb_spec b 0) as [|_]; [contradiction|].
  rewrite Z.divide_abs_l, <- (Z.mod_divide a b Hb). split.
  - now intros [= ->].
  - now intros ->.
Qed.

(** X8. With an interval other than zero, line 213 lets the progress line
    through exactly at the iterations that the absolute value of the
    interval divides: a negative interval reports as often as its opposite,
    and nothing else of the state changes. *)
Theorem progress_line_when_interval_divides (loss : R) (s : run_state) (e : Z) :
  interval args <> 0%Z -> epoch s = Some e ->
  ((Z.abs (interval args) | all_iters s)%Z ->
   report_progress loss s =
   Done tt (emit_event (ProgressLine e (epochs args) (cur_no s) len_loader loss) s)) /\
  (~ (Z.abs (interval args) | all_iters s)%Z -> report_progress loss s = Done tt s).
Proof.
  intros Hi He.
  pose proof (py_mod_zero_iff (all_iters s) Hi) as Hdiv.
  unfold report_progress, bind, get, lift, read_epoch, emit, modify.
  unfold py_mod in *. destruct (Z.eqb_spec (interval args) 0) as [|_]; [contradiction|].
  split; intros H.
  - apply Hdiv in H. injection H as ->. simpl. now rewrite He.
  - destruct (Z.eqb_spec (all_iters s mod interval args) 0) as [Hz|_]; [|reflexivity].
    exfalso. apply H, Hdiv. now rewrite Hz.
Qed.

(** ** The metrics of a pass (lines 229-230 and 290-291) *)

Lemma rmap_ok {A B : Type} (f : A -> result B) (g : A -> B) (l : list A) :
  (forall a, In a l -> f a = Ok (g a)) -> rmap f l = Ok (map g l).
Proof.
  induction l as [|a l IH]; intros H; [reflexivity|]. simpl.
  rewrite (H a (or_introl eq_refl)). cbn [rbind].
  rewrite IH by (intros b Hb; apply H; now right). reflexivity.
Qed.

Lemma rmap_raise {A B : Type} (f : A -> result B) (e : exception) (l : list A) :
  (forall a, In a l -> f a = Raise e \/ exists b, f a = Ok b) ->
  (exists a, In a l /\ f a = Raise e) -> rmap f l = Raise e.
Proof.
  induction l as [|a l IH]; intros Hall [x [Hx Hfx]]; [destruct Hx|]. simpl.
  destruct (Hall a (or_introl eq_refl)) as [Ha|[b Ha]]; rewrite Ha; [reflexivity|].
  cbn [rbind]. rewrite IH; [reflexivity| |].
  - intros c Hc. apply Hall. now right.
  - destruct Hx as [<-|Hx]; [congruence|]. now exists x.
Qed.

Lemma per_sample_rows (metric : list R -> list R -> Z -> R) (pred_y actual_y : tensor) :
  per_sample metric pred_y actual_y =
  if (nrows pred_y <=? nrows actual_y)%nat
  then Ok (map (fun i => metric (nth i (rows actual_y) []) (nth i (rows pred_y) []) K)
               (seq 0 (nrows pred_y)))
  else Raise (IndexError "index out of bounds").
Proof.
  unfold per_sample. destruct (Nat.leb_spec (nrows pred_y) (nrows actual_y)) as [Hle|Hlt].
  - apply rmap_ok. intros i Hi. apply in_seq in Hi. unfold row.
    destruct (Nat.ltb_spec i (nrows actual_y)); [|lia].
    destruct (Nat.ltb_spec i (nrows pred_y)); [|lia]. reflexivity.
  - apply rmap_raise.
    + intros i Hi. apply in_seq in Hi. unfold row.
      destruct (Nat.ltb_spec i (nrows actual_y)); [|now left].
      destruct (Nat.ltb_spec i (nrows pred_y)); [|lia]. right. eexists. reflexivity.
    + exists (nrows actual_y). split; [apply in_seq; lia|]. unfold row.
      now rewrite Nat.ltb_irrefl.
Qed.

(** X9. The two means of lines 229-234 are taken over one value per row of
    the predictions, row [i] of the labels against row [i] of the
    predictions; the lines raise [IndexError] exactly when the predictions
    have more rows than the labels, and rows of the labels beyond the
    predictions are ignored. *)
Theorem mean_metrics_rows (pred_y actual_y : tensor) :
  mean_metrics pred_y actual_y =
  if (nrows pred_y <=? nrows actual_y)%nat
  then Ok (np_mean (map (fun i => precision_at_k (nth i (rows actual_y) [])
                                                  (nth i (rows pred_y) []) K)
                        (seq 0 (nrows pred_y))),
           np_mean (map (fun i => ndcg_score_at_k (nth i (rows actual_y) [])
                                                   (nth i (rows pred_y) []) K)
                        (seq 0 (nrows pred_y))))
  else Raise (IndexError "index out of bounds").
Proof.
  unfold mean_metrics. rewrite !per_sample_rows.
  now destruct (nrows pred_y <=? nrows actual_y)%nat.
Qed.

(** ** What a batch step and a whole run leave alone *)

Lemma batch_step_fails_at (b : batch) (s : run_state) :
  exists e, batch_step b s =
            Failed e (set_cur_no (cur_no s + Z.of_nat (nrows (fst b))) s).
Proof.
  destruct b as [x y]. unfold batch_step, bind, modify, get, lift. simpl fst.
  destruct (forward _ cur_device x y) as [[[inp out] reg_fp]|e];
    [|eexists; reflexivity].
  rewrite sample_label_matrix_raises. destruct cur_device; eexists; reflexivity.
Qed.

(** X1. A step of lines 162-217 adds the size of the batch to [cur_no]
    and raises, from the forward pass or else from the sampling of lines
    174-180: the parameters, the optimiser, the iteration count, the
    recorded series and the output are those from before the step. *)
Theorem batch_step_effect (b : batch) (s : run_state) :
  batch_step b s =
  Failed
    match forward (Glas_XC s) cur_device (fst b) (snd b) with
    | Raise e => e
    | Ok _ =>
        match cur_device with
        | cpu => NameError "numpy"
        | cuda => TypeError "can't convert CUDA tensor to numpy"
        end
    end
    (set_cur_no (cur_no s + Z.of_nat (nrows (fst b))) s).
Proof.
  destruct b as [x y]. unfold batch_step, bind, modify, get, lift. simpl fst. simpl snd.
  change (Glas_XC (set_cur_no (cur_no s + Z.of_nat (nrows x)) s)) with (Glas_XC s).
  destruct (forward (Glas_XC s) cur_device x y) as [[[inp out] reg_fp]|e];
    [|reflexivity].
  rewrite sample_label_matrix_raises. now destruct cur_device.
Qed.

Lemma preserves_ret {A : Type} (I : run_state -> Prop) (a : A) : preserves I (ret a).
Proof. intros s H. exact H. Qed.

Lemma preserves_lift {A : Type} (I : run_state -> Prop) (r : result A) :
  preserves I (lift r).
Proof. intros s H. unfold lift. now destruct r. Qed.

Lemma preserves_get (I : run_state -> Prop) : preserves I get.
Proof. intros s H. exact H. Qed.

Lemma preserves_read_epoch (I : run_state -> Prop) : preserves I read_epoch.
Proof. intros s H. unfold read_epoch. now destruct (epoch s). Qed.

Lemma preserves_modify (I : run_state -> Prop) (f : run_state -> run_state) :
  (forall s, I s -> I (f s)) -> preserves I (modify f).
Proof. intros Hf s H. simpl. now apply Hf. Qed.

Lemma preserves_bind {A B : Type} (I : run_state -> Prop) (p : prog A) (k : A -> prog B) :
  preserves I p -> (forall a, preserves I (k a)) -> preserves I (bind p k).
Proof.
  intros Hp Hk s H. rewrite final_state_bind. specialize (Hp s H).
  destruct (p s) as [a s1|e s1]; simpl in Hp; [now apply Hk | exact Hp].
Qed.

Lemma preserves_for_each {A : Type} (I : run_state -> Prop) (l : list A)
      (body : A -> prog unit) :
  (forall a, preserves I (body a)) -> preserves I (for_each l body).
Proof.
  intros Hb. induction l as [|a l IH]; simpl.
  - apply preserves_ret.
  - apply preserves_bind; [apply Hb | intros _; exact IH].
Qed.

Lemma preserves_iterate (I : run_state -> Prop) (dl : DataLoader) :
  (forall r s, I s -> I (set_rng r s)) -> preserves I (iterate dl).
Proof.
  intros Hr s H. unfold iterate.
  destruct (dl_shuffle dl); [destruct (randperm _ _)|]; simpl; auto.
Qed.

(** What no statement of the script outside lines 184-217 touches:
    the training, and the absence of progress lines in the output since
    a given point. *)
Let untrained (c : params * opt_state * Z * list R) (o : list event) (s : run_state)
  : Prop :=
  trained s = c /\
  exists l, output s = o ++ l /\ Forall (fun e => is_progress_line e = false) l.

Lemma untrained_emit c o (e : event) (s : run_state) :
  is_progress_line e = false -> untrained c o s -> untrained c o (emit_event e s).
Proof.
  intros He [Ht [l [Hl HP]]]. split; [exact Ht|].
  exists (l ++ [e]). split.
  - simpl. now rewrite Hl, app_assoc.
  - apply Forall_app. split; [exact HP | now repeat constructor].
Qed.

Lemma preserves_untrained_predictions c o (m : glasxc params) (dl : DataLoader) :
  preserves (untrained c o) (predictions m dl).
Proof.
  unfold predictions. apply preserves_bind.
  - apply preserves_iterate. intros r s H. exact H.
  - intros bs. apply preserves_lift.
Qed.

Lemma preserves_untrained_batch_step c o (b : batch) :
  preserves (untrained c o) (batch_step b).
Proof.
  intros s H. destruct (batch_step_fails_at b s) as [e He]. rewrite He. exact H.
Qed.

Lemma preserves_untrained_epoch_eval c o (dl : DataLoader) :
  preserves (untrained c o) (epoch_eval dl).
Proof.
  unfold epoch_eval.
  apply preserves_bind; [apply preserves_get|]. intros s0.
  apply preserves_bind; [apply preserves_untrained_predictions|]. intros py.
  apply preserves_bind; [apply preserves_lift|]. intros pn.
  apply preserves_bind; [apply preserves_read_epoch|]. intros e.
  apply preserves_bind.
  - apply preserves_modify. intros s. now apply untrained_emit.
  - intros _. apply preserves_modify. intros s H. exact H.
Qed.

Lemma preserves_untrained_train c o (dl : DataLoader) :
  preserves (untrained c o) (train dl).
Proof.
  unfold train. apply preserves_for_each. intros e. unfold train_epoch.
  apply preserves_bind; [apply preserves_modify; intros s H; exact H|]. intros _.
  apply preserves_bind; [apply preserves_modify; intros s H; exact H|]. intros _.
  apply preserves_bind; [apply preserves_iterate; intros r s H; exact H|]. intros bs.
  apply preserves_bind; [|intros _; apply preserves_untrained_epoch_eval].
  apply preserves_for_each. apply preserves_untrained_batch_step.
Qed.

Lemma preserves_untrained_plot_graphs c o : preserves (untrained c o) plot_graphs.
Proof.
  unfold plot_graphs. destruct (plot args); [|apply preserves_ret].
  apply preserves_bind; [apply preserves_get|]. intros s0.
  repeat (apply preserves_bind; [apply preserves_lift|]; intros _).
  apply preserves_modify. intros s. now apply untrained_emit.
Qed.

Lemma preserves_untrained_save_submodule c o (sub : submodule) :
  preserves (untrained c o) (save_submodule sub).
Proof.
  unfold save_submodule. apply preserves_bind.
  - apply preserves_modify. intros s H. exact H.
  - intros _. apply preserves_modify. intros s. now apply untrained_emit.
Qed.

Lemma preserves_untrained_save_models c o : preserves (untrained c o) save_models.
Proof.
  unfold save_models. destruct (save_model args) as [choices|]; [|apply preserves_ret].
  repeat (apply preserves_bind; [|intros _]);
    repeat match goal with
           | |- preserves _ (if ?b then _ else _) => destruct b
           | |- preserves _ (bind _ _) => apply preserves_bind; [|intros _]
           | |- preserves _ (save_submodule _) => apply preserves_untrained_save_submodule
           | |- preserves _ (ret _) => apply preserves_ret
           end.
Qed.

Lemma preserves_untrained_prediction_on_test c o (tdl : option DataLoader) :
  preserves (untrained c o) (prediction_on_test tdl).
Proof.
  unfold prediction_on_test. destruct tdl as [dl|]; [|apply preserves_ret].
  apply preserves_bind;
    [apply preserves_modify; intros s; now apply untrained_emit|]. intros _.
  apply preserves_bind; [apply preserves_get|]. intros s0.
  apply preserves_bind; [apply preserves_untrained_predictions|]. intros py.
  apply preserves_bind; [apply preserves_lift|]. intros pn.
  apply preserves_bind; [apply preserves_read_epoch|]. intros _.
  apply preserves_modify. intros s. now apply untrained_emit.
Qed.

(** X2. No run of the script trains: however it ends, the parameters, the
    optimiser, the iteration count and the recorded losses are those it
    started from, and it has printed no progress line. *)
Theorem script_never_trains (s : run_state) :
  trained (final_state (script s)) = trained s /\
  exists l, output (final_state (script s)) = output s ++ l /\
            Forall (fun e => is_progress_line e = false) l.
Proof.
  assert (H : preserves (untrained (trained s) (output s)) script).
  { unfold script, run_end.
    apply preserves_bind; [apply preserves_lift|]. intros dl.
    apply preserves_bind; [apply preserves_lift|]. intros tdl.
    apply preserves_bind; [apply preserves_untrained_train|]. intros _.
    apply preserves_bind; [apply preserves_untrained_plot_graphs|]. intros _.
    apply preserves_bind; [apply preserves_untrained_save_models|]. intros _.
    apply preserves_untrained_prediction_on_test. }
  apply H. split; [reflexivity|]. exists []. split; [now rewrite app_nil_r | constructor].
Qed.

(** ** Which runs reach their end *)

Lemma batches_in_order_nil (dl : DataLoader) (order : list nat) :
  batches_in_order dl order = [] -> order = [].
Proof.
  unfold batches_in_order. destruct order as [|i order]; [reflexivity|].
  simpl. discriminate.
Qed.

Lemma iterate_sized (dl : DataLoader) (s : run_state) :
  randperm_sized ->
  exists order s1,
    iterate dl s = Done (batches_in_order dl order) s1 /\
    length order = length (dl_dataset dl).
Proof.
  intros Hsz. unfold iterate, visit_order. destruct (dl_shuffle dl).
  - specialize (Hsz (torch_rng s) (length (dl_dataset dl))).
    destruct (randperm _ _) as [perm r]. simpl in Hsz.
    exists perm, (set_rng r s). now split.
  - exists (seq 0 (length (dl_dataset dl))), s. split; [reflexivity | apply length_seq].
Qed.

(** A pass over a data set without samples ends on the stacking of an
    empty list (lines 227 and 288). *)
Lemma predictions_of_nothing (m : glasxc params) (dl : DataLoader) (s : run_state) :
  randperm_sized -> dl_dataset dl = [] ->
  exists s1, predictions m dl s =
             Failed (ValueError "need at least one array to concatenate") s1 /\
             output s1 = output s /\ epoch s1 = epoch s.
Proof.
  intros Hsz Hd. destruct (iterate_sized dl s Hsz) as (order & s1 & Hit & Hlen).
  rewrite Hd in Hlen. destruct order; [|discriminate].
  exists s1. unfold predictions, bind. rewrite Hit. split; [reflexivity|].
  unfold iterate in Hit. destruct (dl_shuffle dl).
  - destruct (randperm _ _). injection Hit as _ <-. now split.
  - injection Hit as _ <-. now split.
Qed.

Lemma for_each_batch_step_fails (b : batch) (bs : list batch) (s : run_state) :
  exists e s', for_each (b :: bs) batch_step s = Failed e s'.
Proof.
  simpl. unfold bind. destruct (batch_step_fails_at b s) as [e He].
  rewrite He. eexists. eexists. reflexivity.
Qed.

(** No epoch of lines 160-234 gets to its end: with a batch it ends in the
    first step, without one on the stacking of line 227. *)
Lemma train_epoch_never_completes (dl : DataLoader) (e : Z) (s : run_state) :
  randperm_sized -> exists ex s', train_epoch dl e s = Failed ex s'.
Proof.
  intros Hsz. unfold train_epoch, bind at 1 2 3, modify.
  destruct (iterate_sized dl (set_cur_no 0 (set_epoch e s)) Hsz)
    as (order & s1 & Hit & Hlen).
  rewrite Hit. destruct (batches_in_order dl order) as [|b bs] eqn:Hb.
  - apply batches_in_order_nil in Hb. subst order. simpl in Hlen.
    assert (Hd : dl_dataset dl = []) by (now destruct (dl_dataset dl)).
    unfold bind at 1. simpl for_each. unfold ret.
    unfold epoch_eval, bind at 1 2, get.
    destruct (predictions_of_nothing (Glas_XC s1) dl s1 Hsz Hd) as (s2 & Hp & _).
    rewrite Hp. eexists. eexists. reflexivity.
  - unfold bind. destruct (for_each_batch_step_fails b bs s1) as (ex & s' & Hf).
    rewrite Hf. eexists. eexists. reflexivity.
Qed.

Lemma train_without_epochs (dl : DataLoader) (s : run_state) :
  (epochs args <= 0)%Z -> train dl s = Done tt s.
Proof.
  intros H. unfold train, py_range.
  replace (Z.to_nat (epochs args)) with 0%nat by lia. reflexivity.
Qed.

Lemma train_with_epochs_fails (dl : DataLoader) (s : run_state) :
  randperm_sized -> (0 < epochs args)%Z -> exists ex s', train dl s = Failed ex s'.
Proof.
  intros Hsz H. unfold train, py_range.
  destruct (Z.to_nat (epochs args)) as [|n] eqn:Hn; [lia|].
  cbn [seq map for_each Z.of_nat]. unfold bind.
  destruct (train_epoch_never_completes dl 0%Z s Hsz) as (ex & s' & Hf).
  rewrite Hf. eexists. eexists. reflexivity.
Qed.

Lemma prediction_on_test_unbound_epoch (dl : DataLoader) (s : run_state) :
  epoch s = None -> exists e s', prediction_on_test (Some dl) s = Failed e s'.
Proof.
  intros He. unfold prediction_on_test, bind at 1 2, emit, modify, get.
  unfold bind at 1.
  destruct (predictions _ dl (emit_event TestHeader s)) as [py s1|e0 s1] eqn:Hp;
    [|eexists; eexists; reflexivity].
  assert (Hep : epoch s1 = None).
  { revert Hp. unfold predictions, bind, iterate.
    destruct (dl_shuffle dl); [destruct (randperm _ _)|];
      (destruct (collect _ _); simpl; [|discriminate]); now intros [= _ <-]. }
  unfold bind, lift. destruct (mean_metrics _ _); [|eexists; eexists; reflexivity].
  unfold read_epoch. rewrite Hep. eexists. eexists. reflexivity.
Qed.

(** X4. When no epoch has run, the prediction on the test set prints its
    header and nothing more: the name [epoch] of line 293 is unbound, so
    the pass raises on it at the latest and the line with the metrics is
    never printed. *)
Theorem prediction_on_test_needs_an_epoch (dl : DataLoader) (s : run_state) :
  epoch s = None ->
  exists e s',
    prediction_on_test (Some dl) s = Failed e s' /\
    output s' = output s ++ [TestHeader] /\
    (forall pred_y actual_y pn s1,
       predictions (Glas_XC s) dl (emit_event TestHeader s) =
         Done (pred_y, actual_y) s1 ->
       mean_metrics pred_y actual_y = Ok pn ->
       e = NameError "epoch").
Proof.
  intros He. unfold prediction_on_test, bind at 1 2, emit, modify, get.
  change (Glas_XC (emit_event TestHeader s)) with (Glas_XC s).
  unfold bind at 1.
  assert (Hkeep : forall py s1,
            predictions (Glas_XC s) dl (emit_event TestHeader s) = Done py s1 ->
            output s1 = output s ++ [TestHeader] /\ epoch s1 = None).
  { intros py s1. unfold predictions, bind, iterate.
    destruct (dl_shuffle dl); [destruct (randperm _ _)|];
      (destruct (collect _ _); simpl; [|discriminate]);
      intros [= _ <-]; now split. }
  assert (Hfail : forall e0 s1,
            predictions (Glas_XC s) dl (emit_event TestHeader s) = Failed e0 s1 ->
            output s1 = output s ++ [TestHeader]).
  { intros e0 s1. unfold predictions, bind, iterate.
    destruct (dl_shuffle dl); [destruct (randperm _ _)|];
      (destruct (collect _ _); simpl; [discriminate|]);
      now intros [= _ <-]. }
  destruct (predictions (Glas_XC s) dl (emit_event TestHeader s))
    as [[pred_y actual_y] s1|e0 s1] eqn:Hp.
  - destruct (Hkeep _ _ eq_refl) as [Ho Hep]. unfold bind, lift. simpl fst. simpl snd.
    destruct (mean_metrics pred_y actual_y) as [pn|e1] eqn:Hm.
    + unfold read_epoch. rewrite Hep. eexists. eexists.
      split; [reflexivity|]. split; [exact Ho|]. reflexivity.
    + eexists. eexists. split; [reflexivity|]. split; [exact Ho|].
      intros p a pn s2 [= <- <- _] Hm'. congruence.
  - eexists. eexists. split; [reflexivity|]. split; [exact (Hfail _ _ eq_refl)|].
    intros p a pn s2 [=].
Qed.

(** ** What saving does (lines 259-274) *)

Lemma requested_condition (choices : list save_choice) (sub : submodule) :
  existsb (fun c => saved_under c sub) choices =
  match sub with
  | input_encoder | input_decoder =>
      chosen SaveInputAE choices || chosen SaveAll choices
  | output_encoder | output_decoder =>
      chosen SaveOutputAE choices || chosen SaveAll choices
  | regressor => chosen SaveRegressor choices || chosen SaveAll choices
  end.
Proof.
  unfold chosen. induction choices as [|c choices IH].
  - now destruct sub.
  - cbn [existsb]. rewrite IH.
    destruct sub, c; cbn [saved_under save_choice_eqb orb];
      repeat match goal with |- context [existsb ?f ?l] => destruct (existsb f l) end;
      reflexivity.
Qed.

Lemma save_models_done (s : run_state) :
  exists s',
    save_models s = Done tt s' /\
    output s' = output s ++ map FileSaved (filter requested submodules) /\
    weights (Glas_XC s') = weights (Glas_XC s) /\ optimizer s' = optimizer s /\
    epoch s' = epoch s /\ CLASS_LOSS s' = CLASS_LOSS s /\
    AVG_P_AT_K s' = AVG_P_AT_K s /\ AVG_NDCG_AT_K s' = AVG_NDCG_AT_K s.
Proof.
  unfold save_models, requested, submodules.
  destruct (save_model args) as [choices|].
  - cbn [filter]. rewrite !requested_condition.
    destruct (chosen SaveInputAE choices || chosen SaveAll choices);
      destruct (chosen SaveOutputAE choices || chosen SaveAll choices);
      destruct (chosen SaveRegressor choices || chosen SaveAll choices);
      (eexists; split; [reflexivity|]); simpl;
      (split; [now rewrite <- ?app_assoc, ?app_nil_r | repeat split]).
  - exists s. split; [reflexivity|]. simpl. split; [now rewrite app_nil_r | repeat split].
Qed.

(** X6. Saving never raises.  It moves to the CPU exactly the submodules
    that some choice of [--save_model] asks for and leaves the others on
    the device they were on; the parameters, the optimiser, the generator,
    the counters and the recorded series are not touched. *)
Theorem save_models_placement (s : run_state) :
  exists s',
    save_models s = Done tt s' /\
    (forall sub, placement (Glas_XC s') sub =
                 if requested sub then cpu else placement (Glas_XC s) sub) /\
    weights (Glas_XC s') = weights (Glas_XC s) /\
    optimizer s' = optimizer s /\ torch_rng s' = torch_rng s /\
    epoch s' = epoch s /\ cur_no s' = cur_no s /\ all_iters s' = all_iters s /\
    CLASS_LOSS s' = CLASS_LOSS s /\ AVG_P_AT_K s' = AVG_P_AT_K s /\
    AVG_NDCG_AT_K s' = AVG_NDCG_AT_K s.
Proof.
  unfold save_models, requested. destruct (save_model args) as [choices|].
  - destruct (chosen SaveInputAE choices || chosen SaveAll choices) eqn:H1;
      destruct (chosen SaveOutputAE choices || chosen SaveAll choices) eqn:H2;
      destruct (chosen SaveRegressor choices || chosen SaveAll choices) eqn:H3;
      (eexists; split; [reflexivity|]; split; [|repeat split]);
      intros sub; rewrite requested_condition;
      destruct sub; rewrite ?H1, ?H2, ?H3; reflexivity.
  - exists s. split; [reflexivity|]. split; [reflexivity | repeat split].
Qed.

(** X7. Saving writes one file for each submodule that some choice asks
    for, in the order input encoder, input decoder, output encoder, output
    decoder, regressor, and no other: choices that repeat or overlap
    ('all' with 'inputAE') do not write a file twice. *)
Theorem save_models_files (s : run_state) :
  exists s',
    save_models s = Done tt s' /\
    output s' = output s ++ map FileSaved (filter requested submodules).
Proof.
  unfold save_models, requested, submodules.
  destruct (save_model args) as [choices|].
  - cbn [filter]. rewrite !requested_condition.
    destruct (chosen SaveInputAE choices || chosen SaveAll choices);
      destruct (chosen SaveOutputAE choices || chosen SaveAll choices);
      destruct (chosen SaveRegressor choices || chosen SaveAll choices);
      (eexists; split; [reflexivity|]); simpl; now rewrite <- ?app_assoc, ?app_nil_r.
  - exists s. split; [reflexivity|]. simpl. now rewrite app_nil_r.
Qed.

(** ** The runs that reach their end *)

Lemma plot_graphs_keeps_epoch (s s' : run_state) :
  plot_graphs s = Done tt s' -> epoch s' = epoch s.
Proof.
  unfold plot_graphs. destruct (plot args); [|now intros [= <-]].
  unfold bind, get, lift, emit, modify.
  destruct (plot_series (all_iters s) (CLASS_LOSS s)); [|discriminate].
  destruct (plot_series (epochs args) (AVG_P_AT_K s)); [|discriminate].
  destruct (plot_series (epochs args) (AVG_NDCG_AT_K s)); [|discriminate].
  now intros [= <-].
Qed.

(** X3. A run that reaches the end of the script had no epoch to train
    and no test set: with an epoch the training raises in its first epoch,
    and with a test set but no epoch the prediction on it raises on the
    unbound [epoch]. *)
Theorem script_completes_only_without_epochs (s s' : run_state) :
  randperm_sized -> epoch s = None -> script s = Done tt s' ->
  (epochs args <= 0)%Z /\ test_loader = None.
Proof.
  intros Hsz He. unfold script, bind at 1 2, lift.
  destruct train_data_loader as [dl|e]; [|discriminate].
  unfold make_test_loader.
  assert (Hep : (epochs args <= 0)%Z \/ (0 < epochs args)%Z) by lia.
  destruct Hep as [Hep|Hep].
  - intros H. split; [exact Hep|].
    destruct test_loader as [d|]; [exfalso | reflexivity].
    cbn [test_data_loader make_loader Z.leb Z.compare rbind] in H.
    unfold bind at 1 in H. rewrite (train_without_epochs dl s Hep) in H.
    unfold run_end, bind at 1 in H.
    destruct (plot_graphs s) as [[] s1|e s1] eqn:Hp; [|discriminate].
    apply plot_graphs_keeps_epoch in Hp.
    unfold bind at 1 in H.
    destruct (save_models_done s1) as (s2 & Hs & _ & _ & _ & Hep2 & _).
    rewrite Hs in H.
    assert (He2 : epoch s2 = None) by congruence.
    destruct (prediction_on_test_unbound_epoch
                (mkDataLoader d (Z.to_nat 1000) false) s2 He2) as (e & s3 & Hf).
    rewrite Hf in H. discriminate.
  - destruct (match test_loader with
              | Some d => rbind (test_data_loader d) (fun dl0 => Ok (Some dl0))
              | None => Ok None
              end) as [tdl|e]; [|discriminate].
    unfold bind at 1.
    destruct (train_with_epochs_fails dl s Hsz Hep) as (ex & s1 & Hf).
    rewrite Hf. discriminate.
Qed.

(** X10. With no epoch to train, no test set and a batch size above zero,
    the script started at line 146 reaches its end: it shows the figure
    of three empty series if the plot is asked for, writes the files of
    the submodules asked for, and returns with the parameters and the
    optimiser it was given. *)
Theorem script_without_epochs (w : params) (o : opt_state) (r : rng) :
  (epochs args <= 0)%Z -> test_loader = None -> (0 < batch_size args)%Z ->
  exists s',
    script (initial_state w o r) = Done tt s' /\
    output s' = (if plot args then [FigureShown [] [] []] else []) ++
                map FileSaved (filter requested submodules) /\
    weights (Glas_XC s') = w /\ optimizer s' = o /\
    CLASS_LOSS s' = [] /\ AVG_P_AT_K s' = [] /\ AVG_NDCG_AT_K s' = [].
Proof.
  intros Hep Ht Hb. unfold script, bind at 1 2, lift.
  unfold train_data_loader, make_loader.
  destruct (Z.leb_spec (batch_size args) 0) as [|_]; [lia|].
  unfold make_test_loader. rewrite Ht.
  unfold bind at 1. rewrite train_without_epochs by exact Hep.
  unfold run_end, bind at 1.
  assert (Hplot : exists s1,
            plot_graphs (initial_state w o r) = Done tt s1 /\
            output s1 = (if plot args then [FigureShown [] [] []] else []) /\
            trained s1 = (w, o, 0%Z, []) /\
            AVG_P_AT_K s1 = [] /\ AVG_NDCG_AT_K s1 = []).
  { unfold plot_graphs. destruct (plot args).
    - unfold bind, get, lift, emit, modify, plot_series. simpl.
      replace (Z.to_nat (epochs args)) with 0%nat by lia. simpl.
      eexists. split; [reflexivity|]. repeat split.
    - eexists. split; [reflexivity|]. repeat split. }
  destruct Hplot as (s1 & Hp & Ho1 & Ht1 & Ha1 & Hn1). rewrite Hp.
  unfold bind at 1.
  destruct (save_models_done s1)
    as (s2 & Hs & Hout & Hw & Hopt & _ & Hcl & Hap & Han).
  rewrite Hs. exists s2. split; [reflexivity|].
  unfold trained in Ht1. injection Ht1 as Hw1 Ho Hi Hc.
  repeat split; congruence.
Qed.

(** ** What a completed step leaves alone (lines 184-217) *)

(** X11. When lines 184-217 complete, the iteration count and the length
    of [CLASS_LOSS] have both grown by one, so that the two stay equal if
    they were (line 249 plots one against the other); at most one progress
    line has been printed; and the devices of the submodules, the epoch,
    [cur_no], the generator and the series of the metrics are unchanged. *)
Theorem completed_step_frame
        (x y reg_fp : tensor) (smp : sampled) (s s' : run_state) :
  loss_and_update x y reg_fp smp s = Done tt s' ->
  all_iters s' = (all_iters s + 1)%Z /\
  length (CLASS_LOSS s') = S (length (CLASS_LOSS s)) /\
  (all_iters s = Z.of_nat (length (CLASS_LOSS s)) ->
   plot_series (all_iters s') (CLASS_LOSS s') = Ok tt) /\
  (output s' = output s \/
   exists e n l, output s' = output s ++ [ProgressLine e (epochs args) n len_loader l]) /\
  placement (Glas_XC s') = placement (Glas_XC s) /\
  epoch s' = epoch s /\ cur_no s' = cur_no s /\ torch_rng s' = torch_rng s /\
  AVG_P_AT_K s' = AVG_P_AT_K s /\ AVG_NDCG_AT_K s' = AVG_NDCG_AT_K s.
Proof.
  unfold loss_and_update, bind, get, lift, modify. intros H.
  destruct (loss_glas (Glas_XC s) y smp) as [lg|e]; [|discriminate].
  destruct (binary_cross_entropy reg_fp y) as [bce|e]; [|discriminate].
  destruct (backward_and_step _ _ _) as [w o].
  assert (Hplot : forall n l (c : R),
            n = Z.of_nat (length l) -> plot_series (n + 1) (l ++ [c]) = Ok tt).
  { intros n l c ->. unfold plot_series. rewrite length_app. simpl.
    replace (Z.to_nat (Z.of_nat (length l) + 1)) with (length l + 1)%nat by lia.
    now rewrite Nat.eqb_refl. }
  match type of H with
  | match report_progress ?l ?s0 with _ => _ end = _ =>
      pose proof (report_progress_cases l s0) as Hc;
      unfold report_progress, bind, get, lift, read_epoch, emit, modify in H, Hc;
      destruct (py_mod (all_iters s0) (interval args)) as [r|e]; [|discriminate];
      destruct (r =? 0)%Z; [destruct (epoch s0) as [e|] eqn:He; [|discriminate]|]
  end; injection H as <-; simpl;
    (split; [reflexivity|]); (split; [rewrite length_app; simpl; lia|]);
    (split; [apply Hplot|]); split; try (repeat split; reflexivity).
  - right. eexists. eexists. eexists. reflexivity.
  - now left.
Qed.

(** ** The labels of a pass (lines 225 and 228) *)

Lemma groups_of_nonempty {A : Type} (fuel b : nat) (l : list A) :
  (0 < b)%nat -> Forall (fun g => g <> []) (groups_of fuel b l).
Proof.
  intros Hb. revert l. induction fuel as [|fuel IH]; intros l; [constructor|].
  destruct l as [|a l]; [constructor|]. cbn [groups_of]. constructor; [|apply IH].
  destruct b; [lia | discriminate].
Qed.

Lemma vstack_labels (gs : list (list (list R * list R))) (L : nat) :
  gs <> [] -> Forall (fun g => g <> []) gs ->
  Forall (fun g => Forall (fun smp => length (snd smp) = L) g) gs ->
  vstack (map (fun g => snd (collate g)) gs) =
  Ok (mkTensor (length (concat gs)) L (map snd (concat gs))).
Proof.
  intros Hne Hg HL.
  assert (Hcols : forall g, In g gs -> ncols (snd (collate g)) = L).
  { intros g Hin. rewrite Forall_forall in Hg, HL.
    specialize (Hg g Hin). specialize (HL g Hin).
    destruct g as [|a g]; [contradiction|]. simpl.
    now inversion HL. }
  assert (Hrows : list_sum (map nrows (map (fun g => snd (collate g)) gs)) =
                  length (concat gs)).
  { clear. unfold list_sum. induction gs as [|g gs IH]; [reflexivity|].
    cbn [map fold_right concat]. rewrite IH, length_app.
    change (nrows (snd (collate g))) with (length (map snd g)).
    now rewrite length_map. }
  assert (Hflat : flat_map rows (map (fun g => snd (collate g)) gs) =
                  map snd (concat gs)).
  { clear. induction gs as [|g gs IH]; [reflexivity|].
    cbn [map flat_map concat]. rewrite IH, map_app. reflexivity. }
  destruct gs as [|g0 gs]; [contradiction|].
  unfold vstack. cbn [map].
  assert (Hall : forallb (fun T => (ncols T =? ncols (snd (collate g0)))%nat)
                   (snd (collate g0) :: map (fun g => snd (collate g)) gs) = true).
  { apply forallb_forall. intros T HT.
    change (snd (collate g0) :: map (fun g => snd (collate g)) gs)
      with (map (fun g => snd (collate g)) (g0 :: gs)) in HT.
    apply in_map_iff in HT. destruct HT as [g [<- Hin]].
    rewrite (Hcols g Hin), (Hcols g0 (or_introl eq_refl)). apply Nat.eqb_refl. }
  rewrite Hall, <- Hrows, <- Hflat.
  rewrite <- (Hcols g0 (or_introl eq_refl)). reflexivity.
Qed.

Lemma groups_of_In {A : Type} (fuel b : nat) (l g : list A) (x : A) :
  In g (groups_of fuel b l) -> In x g -> In x l.
Proof.
  revert l. induction fuel as [|fuel IH]; intros l Hg Hx; [destruct Hg|].
  destruct l as [|a l]; [destruct Hg|]. cbn [groups_of] in Hg.
  rewrite <- (firstn_skipn b (a :: l)). apply in_or_app.
  destruct Hg as [<-|Hg]; [now left | right; now apply (IH _ Hg)].
Qed.

(** X12. When the loops of lines 221-228 and 282-289 return, [actual_y]
    holds the label rows of the samples in the order in which the loader
    visited them, one row for each, whatever the batch size: cutting the
    pass into batches and stacking them again loses and reorders nothing. *)
Theorem labels_stacked_in_visit_order
        (m : glasxc params) (dl : DataLoader) (order : list nat) (L : nat)
        (pred_y actual_y : tensor) :
  (0 < dl_batch_size dl)%nat ->
  Forall (fun i => length (snd (nth i (dl_dataset dl) ([], []))) = L) order ->
  collect m (batches_in_order dl order) = Ok (pred_y, actual_y) ->
  actual_y =
  mkTensor (length order) L
           (map (fun i => snd (nth i (dl_dataset dl) ([], []))) order).
Proof.
  intros Hb HL. unfold collect.
  destruct (rmap _ _) as [pred|e]; [|discriminate]. cbn [rbind].
  destruct (vstack pred) as [py|e]; [|discriminate]. cbn [rbind].
  unfold batches_in_order. rewrite map_map.
  set (samples := map (fun i => nth i (dl_dataset dl) ([], [])) order).
  remember (groups_of (length samples) (dl_batch_size dl) samples) as gs eqn:Hgs.
  assert (Hcat : concat gs = samples).
  { subst gs. apply groups_of_concat; [exact Hb | apply Nat.le_refl]. }
  assert (Hg : Forall (fun g => g <> []) gs).
  { subst gs. now apply groups_of_nonempty. }
  assert (Hlab : Forall (fun g => Forall (fun smp => length (snd smp) = L) g) gs).
  { apply Forall_forall. intros g Hin. apply Forall_forall. intros x Hx.
    subst gs. pose proof (groups_of_In _ _ _ _ x Hin Hx) as Hs.
    unfold samples in Hs. apply in_map_iff in Hs. destruct Hs as [i [<- Hi]].
    rewrite Forall_forall in HL. now apply HL. }
  destruct gs as [|g0 gs].
  { simpl. discriminate. }
  rewrite vstack_labels with (L := L); [|discriminate|exact Hg|exact Hlab].
  rewrite Hcat. cbn [rbind]. intros [= _ <-].
  unfold samples. now rewrite length_map, map_map.
Qed.

(** X13. A pass over a data set without samples raises [ValueError] on
    the stacking of an empty list: the evaluation after an epoch before it
    prints anything, the prediction on the test set after its header. *)
Theorem pass_over_nothing_raises (dl : DataLoader) (s : run_state) :
  randperm_sized -> dl_dataset dl = [] ->
  (exists s1, epoch_eval dl s =
              Failed (ValueError "need at least one array to concatenate") s1 /\
              output s1 = output s) /\
  (exists s1, prediction_on_test (Some dl) s =
              Failed (ValueError "need at least one array to concatenate") s1 /\
              output s1 = output s ++ [TestHeader]).
Proof.
  intros Hsz Hd. split.
  - unfold epoch_eval, bind at 1 2, get.
    destruct (predictions_of_nothing (Glas_XC s) dl s Hsz Hd) as (s1 & Hp & Ho & _).
    rewrite Hp. now exists s1.
  - unfold prediction_on_test, bind at 1 2 3, emit, modify, get.
    destruct (predictions_of_nothing (Glas_XC (emit_event TestHeader s)) dl
                (emit_event TestHeader s) Hsz Hd) as (s1 & Hp & Ho & _).
    rewrite Hp. now exists s1.
Qed.

(** ** The initialisation of the weights (lines 19-29 and 113-114) *)

Lemma apply_weights_init_frame (scheme : string) (mods mods' : list nn_module)
      (g g' : rng) :
  apply_weights_init scheme mods g = Initialised (mods', g') ->
  Forall2 same_but_weight mods mods'.
Proof.
  revert mods' g g'. induction mods as [|mdl rest IH]; intros mods' g g'; simpl.
  - intros [= <- _]. constructor.
  - unfold weights_init.
    destruct mdl as [w b|n].
    + destruct (nn_init (scheme ++ "_")) as [func|]; [|discriminate].
      destruct (func w g) as [w' g1].
      destruct (apply_weights_init scheme rest g1) as [[rest' g2]|n] eqn:Hr;
        [|discriminate].
      intros [= <- _]. constructor; [reflexivity | now apply (IH _ _ _ Hr)].
    + destruct (apply_weights_init scheme rest g) as [[rest' g2]|n'] eqn:Hr;
        [|discriminate].
      intros [= <- _]. constructor; [reflexivity | now apply (IH _ _ _ Hr)].
Qed.

Lemma apply_weights_init_raises (scheme : string) (mods : list nn_module) (g : rng) :
  (exists n, apply_weights_init scheme mods g = AttributeError n) <->
  nn_init (scheme ++ "_") = None /\ existsb is_linear mods = true.
Proof.
  revert g. induction mods as [|mdl rest IH]; intros g; simpl.
  - split; [intros [n H]; discriminate | intros [_ H]; discriminate].
  - unfold weights_init. destruct mdl as [w b|name]; simpl.
    + destruct (nn_init (scheme ++ "_")) as [func|] eqn:Hf.
      * destruct (func w g) as [w' g1]. specialize (IH g1).
        destruct (apply_weights_init scheme rest g1) as [[rest' g2]|n].
        -- split; [intros [n H]; discriminate | intros [H _]; discriminate].
        -- split; [intros _ | intros [H _]; discriminate].
           destruct IH as [IH _]. destruct IH as [H _]; [now exists n | discriminate].
      * split; [now intros _ | intros _; eexists; reflexivity].
    + specialize (IH g).
      destruct (apply_weights_init scheme rest g) as [[rest' g2]|n].
      * split; [intros [n H]; discriminate|]. intros H. apply IH in H.
        destruct H as [n H]. discriminate.
      * split; [intros _; apply IH; now exists n | intros _; now exists n].
Qed.

(** X14. The initialisation of lines 113-114 raises [AttributeError]
    exactly when the scheme is not 'default', [torch.nn.init] has no
    attribute of the name of the scheme followed by an underscore, and the
    network has a linear layer.  When it returns, it has changed nothing
    but weights of linear layers: biases and the other modules are as
    before, and with 'default' the generator is not drawn from. *)
Theorem initialise_network_effect
        (init_scheme : string) (mods : list nn_module) (g : rng) :
  ((exists n, initialise_network init_scheme mods g = AttributeError n) <->
   init_scheme <> "default"%string /\ nn_init (init_scheme ++ "_") = None /\
   existsb is_linear mods = true) /\
  (forall mods' g', initialise_network init_scheme mods g = Initialised (mods', g') ->
     Forall2 same_but_weight mods mods' /\
     (init_scheme = "default"%string -> mods' = mods /\ g' = g)).
Proof.
  unfold initialise_network.
  destruct (String.eqb_spec init_scheme "default") as [Hd|Hd].
  - split.
    + split; [intros [n H]; discriminate | intros [H _]; contradiction].
    + intros mods' g' [= <- <-]. split; [|now split].
      clear. induction mods as [|mdl mods IH]; constructor; [|exact IH].
      now destruct mdl.
  - split.
    + rewrite apply_weights_init_raises. split.
      * intros [H1 H2]. split; [exact Hd|]. now split.
      * intros (_ & H1 & H2). now split.
    + intros mods' g' H. split; [now apply (apply_weights_init_frame _ _ _ H)|].
      intros Heq. contradiction.
Qed.

(** ** What the co-occurrence matrix counts (line 186) *)

Lemma sum_upto_indicator (n : nat) (f : nat -> R) (p : nat -> bool) :
  (forall k, (k < n)%nat -> f k = if p k then 1%R else 0%R) ->
  sum_upto n f = INR (length (filter p (seq 0 n))).
Proof.
  induction n as [|n IH]; intros H; [reflexivity|].
  rewrite seq_S, filter_app, length_app, plus_INR. cbn [sum_upto].
  rewrite IH by (intros k Hk; apply H; lia). rewrite (H n) by lia.
  simpl. destruct (p n); simpl; lra.
Qed.

(** X15. On a binary label matrix, entry (i, j) of the matrix [A] of line
    186 is the number of samples of the batch that have both label [i] and
    label [j]; on the diagonal, the number of samples that have the
    label. *)
Theorem cooccurrence_counts (y : tensor) (i j : nat) :
  binary y -> (i < ncols y)%nat -> (j < ncols y)%nat ->
  exists A, cooccurrence y = Ok A /\
            entry A i j = INR (samples_with_both y i j).
Proof.
  intros Hbin Hi Hj. exists (tabulate (ncols y) (ncols y) (gram y)).
  split; [apply cooccurrence_ok|].
  rewrite entry_tabulate by assumption. unfold gram, samples_with_both.
  apply sum_upto_indicator. intros k' _. unfold has_label.
  destruct (Req_dec_T (entry y k' i) 0) as [Hzi|Hnzi];
    destruct (Req_dec_T (entry y k' j) 0) as [Hzj|Hnzj]; simpl;
    try (rewrite Hzi; lra); try (rewrite Hzj; lra).
  destruct (Hbin k' i) as [H|H]; [contradiction|].
  destruct (Hbin k' j) as [H'|H']; [contradiction|].
  rewrite H, H'. lra.
Qed.

(** ** The progress line in a run (lines 160-217) *)

























End Script.

(** * The statements on the small instance *)

Section Instance.

Open Scope R_scope.

Let network : glasxc Toy.params := mkGlasXC tt (fun _ => cpu).

(** The regulariser on the batch of one sample with its one label set:
    [V], [A] and [Z] are all the one by one matrix 1, and the loss is zero. *)
Lemma toy_loss_glas (a : arguments) :
  loss_glas Toy.encode_output a network Toy.one_label Toy.no_sample = Ok 0.
Proof.
  rewrite (@loss_glas_ok Toy.params Toy.encode_output a network
             Toy.one_label Toy.one_label Toy.no_sample eq_refl eq_refl).
  - f_equal. unfold gram, Toy.one_label, of_rows, entry, div, mean. simpl.
    replace (0 + 1 * 1) with 1 by lra. rewrite Rinv_1. lra.
  - intros i Hi. simpl in Hi. assert (i = 0%nat) as -> by lia.
    unfold gram, Toy.one_label, of_rows, entry. simpl. lra.
Qed.

(** The state in the first epoch, before its first batch. *)
Let first_epoch (a : arguments) : run_state Toy.params Toy.opt_state Toy.rng :=
  set_epoch 0 (initial_state a tt tt 0%nat).

Lemma binary_example : binary (of_rows [[1; 0; 1]; [0; 1; 1]]).
Proof.
  intros i j. unfold entry, of_rows; simpl.
  destruct i as [|[|i]]; simpl;
    [destruct j as [|[|[|j]]] | destruct j as [|[|[|j]]] | destruct i; destruct j];
    simpl; auto; destruct j; auto.
Qed.

Lemma no_zero_column_example : no_zero_column (of_rows [[1; 0; 1]; [0; 1; 1]]).
Proof.
  intros j Hj. simpl in Hj.
  destruct j as [|[|[|j]]]; [exists 0%nat | exists 1%nat | exists 0%nat | lia];
    (split; [simpl; lia | unfold entry, of_rows; simpl; lra]).
Qed.

(** The formula on the matrix of the specification, two samples and three
    labels, embedded as itself: [V] is [A], and [Z] is diag(1, 1, 2). *)
Lemma loss_glas_formula_witness :
  let y := of_rows [[1; 0; 1]; [0; 1; 1]] in
  let A := tabulate 3 3 (gram y) in
  let Z := tabulate 3 3 (fun i j => if (i =? j)%nat then gram y i i else 0) in
  Z = of_rows [[1; 0; 0]; [0; 1; 0]; [0; 0; 2]] /\
  exists W,
    is_inverse Z W /\
    loss_glas Toy.encode_output (Toy.args_with_interval (-1)) network y
              Toy.no_sample =
    Ok (glas_formula 3 A A W).
Proof.
  intros y A Z. split.
  - unfold Z, y, gram, tabulate, of_rows, entry; simpl.
    repeat f_equal; lra.
  - destruct (@loss_glas_formula Toy.params Toy.encode_output
                (Toy.args_with_interval (-1)) network y y Toy.no_sample eq_refl)
      as (_ & _ & _ & Hwidth & _).
    destruct (Hwidth eq_refl) as [Hok _].
    apply Hok. intros i Hi. simpl in Hi.
    rewrite entry_tabulate by exact Hi. rewrite Nat.eqb_refl.
    apply Rgt_not_eq. apply gram_diag_pos.
    now apply no_zero_column_example.
Defined.

(** Line 191 on an embedding of width two of the three labels of the matrix
    of the specification. *)
Remark loss_glas_needs_matching_width (a : arguments) :
  loss_glas Toy.encode_narrow a network (of_rows [[1; 0; 1]; [0; 1; 1]])
            Toy.no_sample =
  Raise (RuntimeError "size mismatch").
Proof.
  unfold loss_glas.
  rewrite (@latent_cooccurrence_ok Toy.params Toy.encode_narrow a network
             (of_rows [[1; 0; 1]; [0; 1; 1]]) _ eq_refl).
  cbn [rbind]. rewrite mean_cooccurrence_ok.
  - reflexivity.
  - intros i Hi. simpl in Hi. apply Rgt_not_eq. apply gram_diag_pos.
    now apply no_zero_column_example.
Qed.

(** The regulariser can fail although no diagonal entry of [Z] is zero.
    The network embeds the three labels of the matrix of the specification
    in two dimensions: [A] is [[1,0,1],[0,1,1],[1,1,2]] and [Z] is
    diag(1, 1, 2), without a zero on its diagonal, [V] is two by two and
    [M] three by three, and [torch.sub] of line 191 raises. *)
Lemma loss_glas_raises_without_zero_diagonal :
  let y := of_rows [[1; 0; 1]; [0; 1; 1]] in
  let A := of_rows [[1; 0; 1]; [0; 1; 1]; [1; 1; 2]] in
  let Z := of_rows [[1; 0; 0]; [0; 1; 0]; [0; 0; 2]] in
  let l := loss_glas Toy.encode_narrow (Toy.args_with_interval (-1)) network y
                     Toy.no_sample in
  binary y /\
  Toy.encode_narrow network cpu y = Ok (of_rows [[1; 1]; [1; 1]]) /\
  cooccurrence y = Ok A /\ diag_mat (diag_vec A) = Z /\
  (forall i, (i < 3)%nat -> entry Z i i <> 0) /\
  l = Raise (RuntimeError "size mismatch") /\
  ~ (raises l <-> exists i, (i < 3)%nat /\ entry Z i i = 0).
Proof.
  intros y A Z l.
  assert (Hnz : forall i, (i < 3)%nat -> entry Z i i <> 0).
  { intros i Hi. unfold Z, entry, of_rows; simpl.
    destruct i as [|[|[|i]]]; simpl; [lra | lra | lra | lia]. }
  assert (Hl : l = Raise (RuntimeError "size mismatch")).
  { apply loss_glas_needs_matching_width. }
  split; [exact binary_example|]. split; [reflexivity|]. split.
  { unfold cooccurrence, mm, t, y, A, tabulate, of_rows, entry; simpl.
    repeat f_equal; lra. }
  split; [reflexivity|]. split; [exact Hnz|]. split; [exact Hl|].
  intros [H _]. destruct H as [i [Hi Hz]].
  - exists (RuntimeError "size mismatch"). exact Hl.
  - exact (Hnz i Hi Hz).
Qed.

(** Sign and zero of the loss on that batch. *)
Lemma loss_glas_nonneg_witness :
  0 <= 0 /\
  (forall V M,
     latent_cooccurrence Toy.encode_output (Toy.args_with_interval (-1)) network
                         Toy.one_label = Ok V ->
     mean_cooccurrence Toy.one_label = Ok M -> V = M -> 0 = 0).
Proof.
  exact (@loss_glas_nonneg Toy.params Toy.encode_output
           (Toy.args_with_interval (-1)) network Toy.one_label Toy.no_sample 0
           (toy_loss_glas _)).
Defined.

(** The co-occurrence matrix of the matrix of the specification. *)
Lemma cooccurrence_symmetric_positive_witness :
  (exists A, cooccurrence (of_rows [[1; 0; 1]; [0; 1; 1]]) = Ok A /\ symmetric A /\
             (forall j, (j < 3)%nat -> 0 < entry A j j) /\
             exists AZ, normalised_cooccurrence A = Ok AZ) /\
  (cooccurrence (of_rows [[1; 0; 1]; [0; 1; 1]]) =
     Ok (of_rows [[1; 0; 1]; [0; 1; 1]; [1; 1; 2]]) /\
   diag_mat (diag_vec (of_rows [[1; 0; 1]; [0; 1; 1]; [1; 1; 2]])) =
     of_rows [[1; 0; 0]; [0; 1; 0]; [0; 0; 2]]).
Proof.
  exact (@cooccurrence_symmetric_positive (of_rows [[1; 0; 1]; [0; 1; 1]])
           binary_example no_zero_column_example).
Defined.

(** The record of the first step of the first epoch, at the default
    interval, on the batch of one sample. *)
Lemma recorded_loss_witness :
  exists bce lg,
    CLASS_LOSS (mkState network tt 0%nat (Some 0%Z) 0 1 [0 + LAMBDA * 0] [] []
                        [ProgressLine 0 10 0 2 (0 + LAMBDA * 0)]) =
    CLASS_LOSS (first_epoch (Toy.args_with_interval (-1))) ++ [bce + 10 * lg].
Proof.
  destruct (@recorded_loss_is_bce_plus_glas Toy.params Toy.opt_state Toy.rng
              Toy.forward Toy.encode_output Toy.binary_cross_entropy
              Toy.backward_and_step (Toy.args_with_interval (-1)) Toy.train_set
              Toy.one_label Toy.one_label Toy.one_label Toy.no_sample
              (first_epoch (Toy.args_with_interval (-1)))
              (mkState network tt 0%nat (Some 0%Z) 0 1 [0 + LAMBDA * 0] [] []
                       [ProgressLine 0 10 0 2 (0 + LAMBDA * 0)]))
    as (bce & lg & _ & _ & H & _).
  - unfold loss_and_update, bind, get, lift, modify.
    change (Glas_XC (first_epoch (Toy.args_with_interval (-1)))) with network.
    rewrite toy_loss_glas. reflexivity.
  - exists bce, lg. exact H.
Defined.

(** Lines 213-215 by themselves under the defaults with [--interval 0]. *)
Example report_progress_at_interval_zero_example :
  report_progress (Toy.args_with_interval 0) Toy.train_set 0
                  (first_epoch (Toy.args_with_interval 0)) =
  Failed unit ZeroDivisionError (first_epoch (Toy.args_with_interval 0)).
Proof.
  exact (proj1 (@report_progress_at_interval_zero Toy.params Toy.opt_state Toy.rng
                  Toy.forward Toy.encode_output Toy.binary_cross_entropy
                  Toy.backward_and_step (Toy.args_with_interval 0) Toy.train_set
                  0 (first_epoch (Toy.args_with_interval 0)) eq_refl)).
Qed.

(** Lines 213-215 by themselves under the defaults. *)
Example report_progress_at_default_interval_example :
  report_progress (Toy.args_with_interval (-1)) Toy.train_set 0
                  (first_epoch (Toy.args_with_interval (-1))) =
  Done tt (emit_event (ProgressLine 0 10 0 2 0)
                      (first_epoch (Toy.args_with_interval (-1)))).
Proof.
  exact (@report_progress_at_default_interval Toy.params Toy.opt_state Toy.rng
           (Toy.args_with_interval (-1)) Toy.train_set 0
           (first_epoch (Toy.args_with_interval (-1))) 0%Z eq_refl eq_refl).
Qed.




(** The state after no epoch, the generator in a given state. *)
Let start (d : device) (r : Toy.rng) : run_state Toy.params Toy.opt_state Toy.rng :=
  initial_state (Toy.args_run_end d) tt tt r.








(** The end of a run of the instance.  With no epoch, the plot asked for,
    every submodule saved and a test set, the script shows the figure, writes the
    five files and only then starts the prediction on the test set (which
    ends on the unbound [epoch] of line 293): the outputs are not in the
    order evaluation, plots, saving. *)
Lemma run_end_not_in_specified_order :
  match script Toy.randperm Toy.forward Toy.encode_output Toy.predict
               Toy.binary_cross_entropy Toy.backward_and_step Toy.metric Toy.metric
               Toy.random_choice (Toy.args_run_end cpu) Toy.train_set
               (Some Toy.test_set) (start cpu 0%nat)
  with
  | Failed _ e s' =>
      e = NameError "epoch" /\
      output s' =
        [FigureShown [] [] []; FileSaved input_encoder; FileSaved input_decoder;
         FileSaved output_encoder; FileSaved output_decoder; FileSaved regressor;
         TestHeader] /\
      in_order specified_rank (actions (output s')) = false
  | Done _ _ => False
  end.
Proof.
  vm_compute. repeat split.
Qed.

(** Saving in a run on an accelerator that saves everything. *)
Lemma saving_moves_submodules_witness :
  exists s',
    save_models (Toy.args_run_end cuda) (start cuda 0%nat) = Done tt s' /\
    placement (Glas_XC s') input_encoder = cpu /\
    placement (Glas_XC s') input_encoder <> cur_device (Toy.args_run_end cuda).
Proof.
  destruct (@saving_moves_submodules_to_cpu Toy.params Toy.opt_state Toy.rng
              Toy.randperm Toy.predict Toy.metric Toy.metric (Toy.args_run_end cuda)
              [SaveAll] SaveAll input_encoder (start cuda 0%nat)
              eq_refl (or_introl eq_refl) eq_refl)
    as (s' & Hs & Hp & _ & Hd & _).
  exists s'. split; [exact Hs|]. split; [exact Hp|]. apply Hd. reflexivity.
Defined.

(** With the defaults and a training set the run ends in its first batch,
    on line 178, having printed and recorded nothing. *)
Example first_batch_raises :
  match script Toy.randperm Toy.forward Toy.encode_output Toy.predict
               Toy.binary_cross_entropy Toy.backward_and_step Toy.metric Toy.metric
               Toy.random_choice (Toy.args_with_interval (-1)) Toy.train_set None
               (initial_state (Toy.args_with_interval (-1)) tt tt 0%nat)
  with
  | Failed _ e s' =>
      e = NameError "numpy" /\ output s' = [] /\ CLASS_LOSS s' = [] /\
      all_iters s' = 0%Z
  | Done _ _ => False
  end.
Proof.
  vm_compute. repeat split.
Qed.

End Instance.

(** * The further statements on the small instance *)

Section FurtherInstance.

Open Scope R_scope.

Let network : glasxc Toy.params := mkGlasXC tt (fun _ => cpu).

(** The defaults with no epoch, and the plot. *)
Let no_epoch : arguments := mkArguments cpu 64 0 (-1) true None 5.

Lemma toy_randperm_sized : randperm_sized Toy.randperm.
Proof.
  intros r n. unfold Toy.randperm. simpl.
  destruct (Nat.even r); [apply length_seq | now rewrite length_rev, length_seq].
Qed.

(** The progress line at the third iteration with [--interval -3]. *)
Lemma progress_line_witness :
  report_progress (Toy.args_with_interval (-3)) Toy.train_set 0
    (set_all_iters 3 (set_epoch 0 (initial_state (Toy.args_with_interval (-3))
                                                 tt tt 0%nat))) =
  Done tt
    (emit_event (ProgressLine 0 10 0 2 0)
       (set_all_iters 3 (set_epoch 0 (initial_state (Toy.args_with_interval (-3))
                                                    tt tt 0%nat)))).
Proof.
  apply (@progress_line_when_interval_divides Toy.params Toy.opt_state Toy.rng
           (Toy.args_with_interval (-3)) Toy.train_set 0
           (set_all_iters 3 (set_epoch 0 (initial_state (Toy.args_with_interval (-3))
                                                        tt tt 0%nat)))
           0%Z).
  - simpl. lia.
  - reflexivity.
  - exists 1%Z. reflexivity.
Defined.

(** The prediction on the test set of the instance when no epoch ran. *)
Lemma prediction_on_test_witness :
  exists e s',
    prediction_on_test Toy.randperm Toy.predict Toy.metric Toy.metric no_epoch
      (Some (mkDataLoader Toy.test_set 1000 false))
      (initial_state no_epoch tt tt 0%nat) = Failed unit e s' /\
    output s' = [TestHeader].
Proof.
  destruct (@prediction_on_test_needs_an_epoch Toy.params Toy.opt_state Toy.rng
              Toy.randperm Toy.predict Toy.metric Toy.metric no_epoch
              (mkDataLoader Toy.test_set 1000 false)
              (initial_state no_epoch tt tt 0%nat) eq_refl)
    as (e & s' & H & Ho & _).
  exists e, s'. split; [exact H | exact Ho].
Defined.

(** The run of the instance with no epoch and no test set. *)
Lemma script_completes_witness :
  (epochs no_epoch <= 0)%Z /\ @None dataset = None.
Proof.
  apply (@script_completes_only_without_epochs Toy.params Toy.opt_state Toy.rng
           Toy.randperm Toy.forward Toy.encode_output Toy.predict
           Toy.binary_cross_entropy Toy.backward_and_step Toy.metric Toy.metric
           Toy.random_choice no_epoch Toy.train_set None
           (initial_state no_epoch tt tt 0%nat)
           (emit_event (FigureShown [] [] []) (initial_state no_epoch tt tt 0%nat))).
  - exact toy_randperm_sized.
  - reflexivity.
  - reflexivity.
Defined.

Lemma script_without_epochs_witness :
  exists s',
    script Toy.randperm Toy.forward Toy.encode_output Toy.predict
           Toy.binary_cross_entropy Toy.backward_and_step Toy.metric Toy.metric
           Toy.random_choice no_epoch Toy.train_set None
           (initial_state no_epoch tt tt 0%nat) = Done tt s' /\
    output s' = [FigureShown [] [] []].
Proof.
  destruct (@script_without_epochs Toy.params Toy.opt_state Toy.rng
              Toy.randperm Toy.forward Toy.encode_output Toy.predict
              Toy.binary_cross_entropy Toy.backward_and_step Toy.metric Toy.metric
              Toy.random_choice no_epoch Toy.train_set None tt tt 0%nat)
    as (s' & H & Ho & _).
  - simpl. lia.
  - reflexivity.
  - simpl. lia.
  - exists s'. split; [exact H | exact Ho].
Defined.

(** The first step of the first epoch on the batch of one sample. *)
Lemma completed_step_witness :
  all_iters (mkState network tt 0%nat (Some 0%Z) 0 1 [0 + LAMBDA * 0] [] []
                     [ProgressLine 0 10 0 2 (0 + LAMBDA * 0)]) = (0 + 1)%Z.
Proof.
  apply (@completed_step_frame Toy.params Toy.opt_state Toy.rng
           Toy.forward Toy.encode_output Toy.binary_cross_entropy
           Toy.backward_and_step (Toy.args_with_interval (-1)) Toy.train_set
           Toy.one_label Toy.one_label Toy.one_label Toy.no_sample
           (set_epoch 0 (initial_state (Toy.args_with_interval (-1)) tt tt 0%nat))
           (mkState network tt 0%nat (Some 0%Z) 0 1 [0 + LAMBDA * 0] [] []
                    [ProgressLine 0 10 0 2 (0 + LAMBDA * 0)])).
  unfold loss_and_update, bind, get, lift, modify.
  change (Glas_XC (set_epoch 0 (initial_state (Toy.args_with_interval (-1))
                                              tt tt 0%nat))) with network.
  rewrite toy_loss_glas. reflexivity.
Defined.

(** The labels of a pass over the training set of the instance in reverse
    order, one sample a batch. *)
Lemma labels_stacked_witness :
  mkTensor 2 1 [[1]; [0]] =
  mkTensor (length [1%nat; 0%nat]) 1
    (map (fun i => snd (nth i Toy.train_set ([], []))) [1%nat; 0%nat]).
Proof.
  apply (@labels_stacked_in_visit_order Toy.params Toy.predict no_epoch network
           (mkDataLoader Toy.train_set 1 true) [1%nat; 0%nat] 1%nat
           (mkTensor 2 1 [[1]; [0]]) (mkTensor 2 1 [[1]; [0]])).
  - simpl. lia.
  - repeat constructor.
  - reflexivity.
Defined.

(** The passes over a data set without samples. *)
Lemma pass_over_nothing_witness :
  (exists s1,
     epoch_eval Toy.randperm Toy.predict Toy.metric Toy.metric no_epoch
       (mkDataLoader [] 64 true) (initial_state no_epoch tt tt 0%nat) =
     Failed unit (ValueError "need at least one array to concatenate") s1 /\
     output s1 = []) /\
  (exists s1,
     prediction_on_test Toy.randperm Toy.predict Toy.metric Toy.metric no_epoch
       (Some (mkDataLoader [] 64 true)) (initial_state no_epoch tt tt 0%nat) =
     Failed unit (ValueError "need at least one array to concatenate") s1 /\
     output s1 = [TestHeader]).
Proof.
  exact (@pass_over_nothing_raises Toy.params Toy.opt_state Toy.rng Toy.randperm
           Toy.predict Toy.metric Toy.metric no_epoch (mkDataLoader [] 64 true)
           (initial_state no_epoch tt tt 0%nat) toy_randperm_sized eq_refl).
Defined.

(** The count of the samples with the labels 1 and 3 in the matrix of the
    specification. *)
Lemma cooccurrence_counts_witness :
  exists A, cooccurrence (of_rows [[1; 0; 1]; [0; 1; 1]]) = Ok A /\
            entry A 0 2 = INR (samples_with_both (of_rows [[1; 0; 1]; [0; 1; 1]]) 0 2).
Proof.
  apply (@cooccurrence_counts (of_rows [[1; 0; 1]; [0; 1; 1]]) 0%nat 2%nat
           binary_example); simpl; lia.
Defined.

End FurtherInstance.
